(** * StorySync: the context store, context retrieval and the generation
    stages that feed it

    A shallow embedding of [utils/context_manager.py], of the outline
    stages of [story/foundation.py], of the chapter generator of
    [story/chapters.py] and of the chapter loop that joins them, with the
    properties of the continuity engine proved over it.

    Python values are dynamically typed, so the records that travel through
    the pipeline (chapters, outline stubs) are embedded as JSON-like values;
    operations that Python rejects at run time return [Raise]. *)

From stdpp Require Import gmap strings list fin_maps pretty.
From Stdlib Require Import ZArith QArith Lia.
From Stdlib Require Import Sorting.Sorted Sorting.Permutation.

Set Warnings "-register-all".

Open Scope Z_scope.

(** ** Python values *)

Module Py.

(** The values a parsed generation result can hold.  Dictionaries keep their
    insertion order, as Python's do. *)
Inductive value : Type :=
| VNone
| VBool (b : bool)
| VInt (z : Z)
| VStr (s : string)
| VList (l : list value)
| VDict (d : list (string * value)).

Definition dict := list (string * value).

Inductive exn : Type :=
| TypeError
| AttributeError
| KeyError
| IndexError
| ZeroDivisionError
| OutputParserException.

Inductive result (A : Type) : Type :=
| Ok (a : A)
| Raise (e : exn).
Arguments Ok {A} a.
Arguments Raise {A} e.

Definition is_ok {A} (r : result A) : bool :=
  match r with Ok _ => true | Raise _ => false end.

(** *** Stateful code

    A computation over a state of type [S] ends with a value or with an
    exception; the state it reached is kept in both cases, as the effects
    of a Python call are when it raises. *)
Definition M (S A : Type) : Type := S → result A * S.

#[export] Instance M_ret {S} : MRet (M S) := λ A a s, (Ok a, s).

#[export] Instance M_bind {S} : MBind (M S) := λ A B f m s,
  match m s with
  | (Ok a, s') => f a s'
  | (Raise e, s') => (Raise e, s')
  end.

#[export] Instance result_ret : MRet result := λ A a, Ok a.

#[export] Instance result_bind : MBind result := λ A B f r,
  match r with
  | Ok a => f a
  | Raise e => Raise e
  end.

(** A pure operation that may raise. *)
Definition lift {S A} (r : result A) : M S A := λ s, (r, s).

Definition get_state {S} : M S S := λ s, (Ok s, s).
Definition put_state {S} (s : S) : M S unit := λ _, (Ok tt, s).

(** [try: body except Exception: handler]; the handler starts in the state
    in which the exception left the body. *)
Definition try_except {S A} (body : M S A) (handler : exn → M S A) : M S A :=
  λ s, match body s with
       | (Ok a, s') => (Ok a, s')
       | (Raise e, s') => handler e s'
       end.

(** The body of a [for x in items] loop, run for each item in turn. *)
Fixpoint for_each {S A} (items : list A) (body : A → M S unit) : M S unit :=
  match items with
  | [] => mret tt
  | x :: items' => body x ;; for_each items' body
  end.

(** *** Strings *)

(** [str.lower()] on the ASCII range: 'A'..'Z' go to 'a'..'z', every other
    character is kept. *)
Definition lower_char (c : Ascii.ascii) : Ascii.ascii :=
  let n := Ascii.nat_of_ascii c in
  if ((65 <=? n)%nat && (n <=? 90)%nat)%bool
  then Ascii.ascii_of_nat (n + 32) else c.

Fixpoint lower (s : string) : string :=
  match s with
  | EmptyString => EmptyString
  | String c s' => String (lower_char c) (lower s')
  end.

(** [sub in s] for two strings: [sub] occurs in [s] as a contiguous run. *)
Fixpoint contains (sub s : string) : bool :=
  String.prefix sub s ||
  match s with
  | EmptyString => false
  | String _ s' => contains sub s'
  end.

(** The characters of a string, as iteration over a [str] yields them. *)
Fixpoint chars (s : string) : list string :=
  match s with
  | EmptyString => []
  | String c s' => String c EmptyString :: chars s'
  end.

(** [sep.join(items)] *)
Fixpoint join (sep : string) (items : list string) : string :=
  match items with
  | [] => ""
  | [x] => x
  | x :: items' => x +:+ sep +:+ join sep items'
  end.

(** *** Dictionaries *)

Fixpoint dict_lookup (d : dict) (k : string) : option value :=
  match d with
  | [] => None
  | (k', v) :: d' => if String.eqb k' k then Some v else dict_lookup d' k
  end.

(** [d.get(k, dflt)] *)
Definition get (d : dict) (k : string) (dflt : value) : value :=
  default dflt (dict_lookup d k).

(** [k in d] *)
Definition has_key (d : dict) (k : string) : bool :=
  bool_decide (is_Some (dict_lookup d k)).

(** [d[k] = v]: an existing key keeps its position, a new key goes last. *)
Fixpoint set_item (d : dict) (k : string) (v : value) : dict :=
  match d with
  | [] => [(k, v)]
  | (k', v') :: d' =>
      if String.eqb k' k then (k', v) :: d' else (k', v') :: set_item d' k v
  end.

(** *** Generic operations *)

(** Truth value of an object, as [if x] and [not x] compute it. *)
Definition truthy (v : value) : bool :=
  match v with
  | VNone => false
  | VBool b => b
  | VInt z => negb (z =? 0)
  | VStr s => negb (String.eqb s "")
  | VList l => negb (bool_decide (l = []))
  | VDict d => negb (bool_decide (d = []))
  end.

(** [len(x)] *)
Definition len (v : value) : result Z :=
  match v with
  | VStr s => Ok (Z.of_nat (String.length s))
  | VList l => Ok (Z.of_nat (length l))
  | VDict d => Ok (Z.of_nat (length d))
  | VNone | VBool _ | VInt _ => Raise TypeError
  end.

(** The items a [for x in v] loop visits: the elements of a list, the keys
    of a dictionary, the characters of a string. *)
Definition iter (v : value) : result (list value) :=
  match v with
  | VList l => Ok l
  | VDict d => Ok (VStr <$> d.*1)
  | VStr s => Ok (VStr <$> chars s)
  | VNone | VBool _ | VInt _ => Raise TypeError
  end.

(** [x.lower()]: only strings have the method. *)
Definition str_lower (v : value) : result string :=
  match v with
  | VStr s => Ok (lower s)
  | _ => Raise AttributeError
  end.

(** [l[:k]] on a list: the first [k] items, or all but the last [-k] when
    [k] is negative. *)
Definition slice_to {A} (k : Z) (l : list A) : list A :=
  if 0 <=? k then take (Z.to_nat k) l
  else take (length l - Z.to_nat (- k)) l.

(** [v.append(x)]: only lists have the method. *)
Definition list_append (v x : value) : result value :=
  match v with
  | VList l => Ok (VList (l ++ [x]))
  | _ => Raise AttributeError
  end.

Definition substring_to (k : Z) (s : string) : string :=
  String.string_of_list_ascii (slice_to k (String.list_ascii_of_string s)).

(** [v[:k]]: lists and strings can be sliced. *)
Definition slice (v : value) (k : Z) : result value :=
  match v with
  | VList l => Ok (VList (slice_to k l))
  | VStr s => Ok (VStr (substring_to k s))
  | _ => Raise TypeError
  end.

Definition is_str (k : string) (v : value) : bool :=
  match v with
  | VStr s => String.eqb s k
  | _ => false
  end.

(** [k in v] for a string [k]: a key of a dictionary, a run of characters
    of a string, an item of a list. *)
Definition contains_item (k : string) (v : value) : result bool :=
  match v with
  | VDict d => Ok (has_key d k)
  | VStr s => Ok (contains k s)
  | VList l => Ok (existsb (is_str k) l)
  | VNone | VBool _ | VInt _ => Raise TypeError
  end.

(** [v[k] = x] for a string [k]: only dictionaries accept it. *)
Definition assign_item (v : value) (k : string) (x : value) : result value :=
  match v with
  | VDict d => Ok (VDict (set_item d k x))
  | _ => Raise TypeError
  end.

(** [d[k]] *)
Definition getitem (d : dict) (k : string) : result value :=
  match dict_lookup d k with
  | Some v => Ok v
  | None => Raise KeyError
  end.

(** [l[i]] on a list; a negative index counts from the end. *)
Definition index {A} (l : list A) (i : Z) : result A :=
  let n := Z.of_nat (length l) in
  let j := if i <? 0 then i + n else i in
  if (0 <=? j) && (j <? n) then
    match l !! Z.to_nat j with
    | Some x => Ok x
    | None => Raise IndexError
    end
  else Raise IndexError.

(** [v == n] for an integer [n]; [True] and [False] compare as 1 and 0. *)
Definition eq_int (v : value) (n : Z) : bool :=
  match v with
  | VInt z => z =? n
  | VBool b => (if b then 1 else 0) =? n
  | _ => false
  end.

(** The text an f-string puts for a value.  Strings stand for themselves
    and integers in decimal; the generators format nothing else, and the
    rendering of containers is exact when their strings need no escaping. *)
Fixpoint repr (v : value) : string :=
  match v with
  | VNone => "None"
  | VBool b => if b then "True" else "False"
  | VInt z => pretty z
  | VStr s => "'" +:+ s +:+ "'"
  | VList l => "[" +:+ join ", " (map repr l) +:+ "]"
  | VDict d =>
      "{" +:+ join ", " (map (λ kv, "'" +:+ kv.1 +:+ "': " +:+ repr kv.2) d)
      +:+ "}"
  end.

Definition str (v : value) : string :=
  match v with
  | VStr s => s
  | _ => repr v
  end.

(** [range(a, b)] *)
Definition range (a b : Z) : list Z := seqZ a (b - a).

End Py.

Import Py.

(** ** Configuration ([config/settings.py]) *)

Definition MAX_CONTEXT_ITEMS : Z := 15.
Definition CRITICAL_CONTEXT_WEIGHT : Z := 3.

(** ** [list.sort(key=..., reverse=True)]

    Python's sort is stable, and with [reverse=True] items whose keys are
    equal still keep their original order.  The keys used by the context
    manager are pairs of integers, compared lexicographically. *)

Module PySort.

Definition key_lt (a b : Z * Z) : bool :=
  (a.1 <? b.1) || ((a.1 =? b.1) && (a.2 <? b.2)).

(** [a] may stand before [b] in a descending list. *)
Definition key_ge (a b : Z * Z) : Prop :=
  b.1 < a.1 ∨ (b.1 = a.1 ∧ b.2 ≤ a.2).

Section Sort.
Context {A : Type} (key : A → Z * Z).

(** [x] goes after the items whose key is greater and before the first
    item whose key is not. *)
Fixpoint insert_desc (x : A) (l : list A) : list A :=
  match l with
  | [] => [x]
  | y :: l' =>
      if key_lt (key x) (key y) then y :: insert_desc x l' else x :: y :: l'
  end.

Fixpoint sort_reverse (l : list A) : list A :=
  match l with
  | [] => []
  | x :: l' => insert_desc x (sort_reverse l')
  end.

Definition descending (l : list A) : Prop :=
  StronglySorted (λ a b, key_ge (key a) (key b)) l.
End Sort.

End PySort.

(** ** The context manager ([utils/context_manager.py]) *)

Module Point.
(** A context point: the dictionary [add_context_point] appends. *)
Record t : Type := Build {
  content : value;
  chapter : Z;
  importance : string;
  type : string;
  weight : Z
}.
End Point.

Module Summary.
(** An entry of [chapter_summaries]. *)
Record t : Type := Build {
  title : value;
  summary : value;
  key_events : value
}.
End Summary.

Module Context.
(** The bundle [get_context_for_chapter] returns. *)
Record t : Type := Build {
  previous_chapters : list Summary.t;
  key_events : list value;
  character_developments : list value;
  open_hooks : list value
}.
End Context.

Module ContextManager.

(** The manager's [context_points] attribute refers to a list object that
    is appended to and sorted in place, so list objects live in a store and
    are addressed by reference; a reference is the position at which the
    object was allocated. *)
Abbreviation ref := nat.

Record state : Type := State {
  objects : list (list Point.t);
  context_points : ref;
  chapter_summaries : gmap Z Summary.t
}.

Abbreviation M := (Py.M state).

(** *** List objects *)

Definition deref (r : ref) (s : state) : list Point.t :=
  default [] (objects s !! r).

Definition read (r : ref) : M (list Point.t) := λ s, (Ok (deref r s), s).

(** A new list object. *)
Definition new_list (l : list Point.t) : M ref :=
  λ s, (Ok (length (objects s)),
        State (objects s ++ [l]) (context_points s) (chapter_summaries s)).

(** A change of the object behind [r], seen through every reference to it. *)
Definition modify (r : ref) (f : list Point.t → list Point.t) : M unit :=
  λ s, (Ok tt, State (alter f r (objects s)) (context_points s)
                     (chapter_summaries s)).

Definition append (r : ref) (p : Point.t) : M unit := modify r (λ l, l ++ [p]).

Definition sort_key (p : Point.t) : Z * Z := (Point.weight p, Point.chapter p).

(** [l.sort(key=lambda x: (x["weight"], x["chapter"]), reverse=True)] *)
Definition sort (r : ref) : M unit := modify r (PySort.sort_reverse sort_key).

(** *** Attributes of [self] *)

Definition get_context_points : M ref := λ s, (Ok (context_points s), s).

Definition set_context_points (r : ref) : M unit :=
  λ s, (Ok tt, State (objects s) r (chapter_summaries s)).

Definition get_chapter_summaries : M (gmap Z Summary.t) :=
  λ s, (Ok (chapter_summaries s), s).

(** [self.chapter_summaries[k] = v] *)
Definition set_chapter_summary (k : Z) (v : Summary.t) : M unit :=
  λ s, (Ok tt, State (objects s) (context_points s)
                     (<[k := v]> (chapter_summaries s))).

(** The points of the store: the list [self.context_points] refers to. *)
Definition points (s : state) : list Point.t := deref (context_points s) s.

(** [__init__] *)
Definition init : state := State [[]] 0%nat ∅.

(** *** Methods *)

Definition weight_map (importance : string) : Z :=
  if String.eqb importance "low" then 1
  else if String.eqb importance "medium" then 2
  else if String.eqb importance "high" then 3
  else if String.eqb importance "critical" then CRITICAL_CONTEXT_WEIGHT
  else 2.

Definition add_context_point (content : value) (chapter : Z)
    (importance context_type : string) : M unit :=
  let weight := weight_map (lower importance) in
  r ← get_context_points;
  append r (Point.Build content chapter importance context_type weight).

Definition _prune_context : M unit :=
  r ← get_context_points;
  l ← read r;
  if MAX_CONTEXT_ITEMS * 3 <? Z.of_nat (length l) then
    sort r ;;
    sorted ← read r;
    kept ← new_list (slice_to (MAX_CONTEXT_ITEMS * 2) sorted);
    set_context_points kept
  else mret tt.

(** A value that may have come back as a string where a list was expected:
    [[x] if x else []] for a string, the value itself otherwise. *)
Definition listify (v : value) : value :=
  match v with
  | VStr s => if String.eqb s "" then VList [] else VList [VStr s]
  | _ => v
  end.

Definition event_importance (text : string) : string :=
  if contains "critical" text || contains "important" text
  then "high" else "medium".

(** [update_with_chapter], up to the pruning call that ends it: the summary
    of the chapter and its context points. *)
Definition record_chapter (chapter : dict) (chapter_num : Z) : M unit :=
  set_chapter_summary chapter_num
    (Summary.Build
       (get chapter "title" (VStr ("Chapter " +:+ pretty chapter_num)))
       (get chapter "summary" (VStr "No summary available."))
       (get chapter "key_events" (VList []))) ;;
  let key_events := listify (get chapter "key_events" (VList [])) in
  events ← lift (iter key_events);
  for_each events (λ event,
    low ← lift (str_lower event);
    add_context_point event chapter_num (event_importance low) "event") ;;
  let character_dev := get chapter "character_development" (VStr "") in
  match character_dev with
  | VStr s =>
      if String.eqb s "" then mret tt
      else add_context_point character_dev chapter_num "high"
             "character_development"
  | VList devs =>
      for_each devs (λ dev,
        add_context_point dev chapter_num "high" "character_development")
  | _ => mret tt
  end ;;
  let next_chapter_hooks := listify (get chapter "next_chapter_hooks" (VList [])) in
  hooks ← lift (iter next_chapter_hooks);
  for_each hooks (λ hook,
    add_context_point hook chapter_num "high" "hook").

Definition update_with_chapter (chapter : dict) (chapter_num : Z) : M unit :=
  record_chapter chapter chapter_num ;;
  _prune_context.

Definition empty_context : Context.t := Context.Build [] [] [] [].

Definition get_context_for_chapter (chapter_num : Z) : M Context.t :=
  if chapter_num =? 1 then mret empty_context
  else
    summaries ← get_chapter_summaries;
    let previous_chapters :=
      omap (λ i, summaries !! i) (range 1 chapter_num) in
    r ← get_context_points;
    all ← read r;
    relevant_points ←
      new_list (filter (λ p, Point.chapter p < chapter_num) all);
    sort relevant_points ;;
    sorted ← read relevant_points;
    let key_events :=
      Point.content <$> filter (λ p, Point.type p = "event") sorted in
    let character_developments :=
      Point.content <$>
        filter (λ p, Point.type p = "character_development") sorted in
    let open_hooks :=
      Point.content <$> filter (λ p, Point.type p = "hook") sorted in
    mret (Context.Build previous_chapters
           (slice_to MAX_CONTEXT_ITEMS key_events)
           (slice_to MAX_CONTEXT_ITEMS character_developments)
           (slice_to MAX_CONTEXT_ITEMS open_hooks)).

End ContextManager.

(** ** The chapter-outline stage ([story/foundation.py]) *)

Module StoryFoundation.

(** The outline [_generate_chapter_outlines] makes up for chapter [i + 1]. *)
Definition placeholder (genres_str narrative_pacing : string) (i : Z) : value :=
  VDict
    [("chapter_number", VInt (i + 1));
     ("title", VStr ("Chapter " +:+ pretty (i + 1)));
     ("summary", VStr "To be determined");
     ("key_points", VList []);
     ("characters_involved", VList []);
     ("setting_details", VStr "");
     ("cultural_elements", VList []);
     ("genre_elements", VStr ("Incorporating elements of " +:+ genres_str));
     ("narrative_progression",
      VStr ("Moving forward with " +:+ narrative_pacing +:+ " pace"))].

(** The state of the method is its local variable [chapter_outlines]; the
    handler of the [try] statement finds it as the exception left it. *)
Abbreviation M := (Py.M value).

(** [chapter_outlines.append(x)] *)
Definition append_outline (x : value) : M unit :=
  chapter_outlines ← get_state;
  appended ← lift (list_append chapter_outlines x);
  put_state appended.

(** The outlines are dictionaries held by the list, so an assignment to a
    key of the [i]-th one shows in the list. *)
Definition store_outline (i : nat) (chapter : value) : M unit :=
  chapter_outlines ← get_state;
  match chapter_outlines with
  | VList l => put_state (VList (<[i := chapter]> l))
  | _ => mret tt
  end.

(** [if k not in chapter: chapter[k] = dflt] *)
Definition ensure_key (i : nat) (k : string) (dflt : value) (chapter : value)
    : M value :=
  present ← lift (contains_item k chapter);
  if (present : bool) then mret chapter
  else
    assigned ← lift (assign_item chapter k dflt);
    store_outline i assigned ;;
    mret assigned.

Section Outlines.
(** The outcome of [parser.parse(response.content)]; the call of the
    model and the parser of the response are outside the repository. *)
Variable parsed : result dict.
Variables (narrative_pacing : string) (num_chapters : Z) (genres : list string).

Let genres_str : string := join ", " genres.

(** The body of the [try] statement. *)
Definition parse_outlines : M unit :=
  result ← lift parsed;
  put_state (get result "chapters" (VList [])) ;;
  chapter_outlines ← get_state;
  n ← lift (len chapter_outlines);
  (if n <? num_chapters then
     for_each (range n num_chapters) (λ i,
       append_outline (placeholder genres_str narrative_pacing i))
   else if num_chapters <? n then
     chapter_outlines ← get_state;
     sliced ← lift (slice chapter_outlines num_chapters);
     put_state sliced
   else mret tt) ;;
  chapter_outlines ← get_state;
  chapters ← lift (iter chapter_outlines);
  for_each (imap pair chapters) (λ ic,
    chapter ← ensure_key ic.1 "genre_elements"
                (VStr ("Incorporating elements of " +:+ genres_str)) ic.2;
    ensure_key ic.1 "narrative_progression"
      (VStr ("Moving forward with " +:+ narrative_pacing +:+ " pace"))
      chapter ;;
    mret tt).

(** The handler of the [try] statement. *)
Definition fallback_outlines : M unit :=
  for_each (range 0 num_chapters) (λ i,
    append_outline (placeholder genres_str narrative_pacing i)).

Definition _generate_chapter_outlines : result value :=
  ((put_state (VList []) ;;
    try_except parse_outlines (λ _, fallback_outlines) ;;
    get_state) VNone).1.
End Outlines.

End StoryFoundation.

(** ** The chapter generator ([story/chapters.py]) *)

Module ChapterGenerator.

(** The attributes of a generator that its methods read or write.  The
    context manager is the one the caller updates after each chapter. *)
Record self : Type := Self {
  story_outline : dict;
  genres : list string;
  context_manager : ContextManager.state;
  genre_arcs : list (string * dict)
}.

Abbreviation M := (Py.M self).

Definition stage_list_keys : list string :=
  ["arc_stages"; "relationship_stages"; "mystery_elements"; "journey_stages";
   "historical_elements"; "magical_elements"].

Definition strings (l : list string) : value := VList (VStr <$> l).

(** The entry [_initialize_genre_arcs] makes for a genre. *)
Definition initial_arc (genre : string) : dict :=
  let genre_lower := lower genre in
  if contains "romance" genre_lower then
    [("relationship_stages",
      strings ["Initial meeting"; "Attraction"; "Obstacles"; "Growth"; "Resolution"]);
     ("current_stage", VInt 0);
     ("emotional_beats", VList []);
     ("key_moments", VList [])]
  else if contains "mystery" genre_lower then
    [("mystery_elements",
      strings ["Initial problem"; "Clues"; "Red herrings"; "Revelations"; "Solution"]);
     ("current_element", VInt 0);
     ("revelations", VList []);
     ("open_questions", VList [])]
  else if contains "adventure" genre_lower then
    [("journey_stages",
      strings ["Call to adventure"; "Challenges"; "Trials"; "Climactic challenge";
               "Return"]);
     ("current_stage", VInt 0);
     ("locations", VList []);
     ("achievements", VList [])]
  else if contains "historical" genre_lower || contains "period" genre_lower then
    [("historical_elements",
      strings ["Setting establishment"; "Period tensions"; "Historical events";
               "Character adaptation"; "Resolution"]);
     ("current_element", VInt 0);
     ("historical_references", VList []);
     ("period_authentic_elements", VList [])]
  else if contains "fantasy" genre_lower || contains "mytholog" genre_lower then
    [("magical_elements",
      strings ["World rules"; "Magic introduction"; "Powers development";
               "Magical conflict"; "Magical resolution"]);
     ("current_element", VInt 0);
     ("magical_components", VList []);
     ("mythological_references", VList [])]
  else
    [("arc_stages",
      strings ["Introduction"; "Development"; "Complication"; "Climax"; "Resolution"]);
     ("current_stage", VInt 0);
     ("key_elements", VList []);
     ("genre_markers", VList [])].

(** [arcs[genre] = arc]: a genre named twice keeps its first position. *)
Fixpoint set_arc (arcs : list (string * dict)) (genre : string) (arc : dict)
    : list (string * dict) :=
  match arcs with
  | [] => [(genre, arc)]
  | (g, a) :: arcs' =>
      if String.eqb g genre then (g, arc) :: arcs'
      else (g, a) :: set_arc arcs' genre arc
  end.

Definition _initialize_genre_arcs (genres : list string) : list (string * dict) :=
  foldl (λ arcs genre, set_arc arcs genre (initial_arc genre)) [] genres.

(** [__init__], for the attributes above. *)
Definition init (story_outline : dict) (genres : list string)
    (context_manager : ContextManager.state) : self :=
  Self story_outline genres context_manager (_initialize_genre_arcs genres).

(** *** The position of a chapter in the story

    [chapter_num / total_chapters] is a float in the source.  It is kept
    here as the exact quotient: the float is the correctly rounded quotient,
    and for chapter counts below 2^53 rounding moves it across neither 0.25
    nor 0.75, which are floats themselves; on the chapter counts of a story
    the integer part of its product with the length of a stage list is that
    of the exact product as well. *)
Definition total_chapters (s : self) : result Z :=
  len (get (story_outline s) "chapters" (VList [])).

Definition chapter_position (chapter_num total : Z) : result Q :=
  if total =? 0 then Raise ZeroDivisionError
  else Ok (Qmake chapter_num (Z.to_pos total)).

(** [int(x)]: the integer part, towards zero. *)
Definition int (x : Q) : Z := Z.quot (Qnum x) (Z.pos (Qden x)).

(** [a % b] *)
Definition mod_ (a b : Z) : result Z :=
  if b =? 0 then Raise ZeroDivisionError else Ok (a mod b).

(** [min(int(position * len(stages)), len(stages) - 1)] *)
Definition stage_index (position : Q) (stages : value) : result Z :=
  n ← len stages;
  Ok (Z.min (int (position * inject_Z n)) (n - 1)).

(** [stages[i]] *)
Definition stage_at (stages : value) (i : Z) : result value :=
  match stages with
  | VList l => index l i
  | VStr s => c ← index (chars s) i; Ok (VStr c)
  | VDict _ => Raise KeyError
  | VNone | VBool _ | VInt _ => Raise TypeError
  end.

(** *** Methods that read *)

Definition default_outline (chapter_num : Z) : dict :=
  [("chapter_number", VInt chapter_num);
   ("title", VStr ("Chapter " +:+ pretty chapter_num));
   ("summary", VStr "No summary available.");
   ("key_points", VList []);
   ("characters_involved", VList []);
   ("setting_details", VStr "");
   ("cultural_elements", VList []);
   ("genre_elements", VList [])].

(** The loop of [_get_chapter_outline]: the first outline whose
    [chapter_number] is the chapter asked for. *)
Fixpoint find_outline (chapters : list value) (chapter_num : Z)
    : result (option dict) :=
  match chapters with
  | [] => Ok None
  | VDict chapter :: chapters' =>
      if eq_int (get chapter "chapter_number" VNone) chapter_num
      then Ok (Some chapter)
      else find_outline chapters' chapter_num
  | _ :: _ => Raise AttributeError
  end.

Definition _get_chapter_outline (s : self) (chapter_num : Z) : result dict :=
  chapters ← iter (get (story_outline s) "chapters" (VList []));
  found ← find_outline chapters chapter_num;
  Ok (default (default_outline chapter_num) found).

Definition phase_of (position : Q) : string * string :=
  if Qle_bool position (1 # 4) then ("establishing", "introduction")
  else if Qle_bool position (3 # 4) then ("developing", "complication")
  else ("resolving", "resolution").

Definition emphasis (genre primary_genre secondary_genre : string) : string :=
  if String.eqb genre primary_genre then "primary"
  else if String.eqb genre secondary_genre then "secondary"
  else "background".

(** The entry of [genre_stages] for one genre, if its arc has one of the
    three stage lists the method looks for. *)
Definition genre_stage (position : Q) (primary_genre secondary_genre : string)
    (genre : string) (arc_data : dict) : result (option value) :=
  let entry (key : string) : result (option value) :=
    stages ← getitem arc_data key;
    i ← stage_index position stages;
    stage ← stage_at stages i;
    Ok (Some (VDict [("current_stage", stage);
                     ("emphasis",
                      VStr (emphasis genre primary_genre secondary_genre))])) in
  if has_key arc_data "arc_stages" then entry "arc_stages"
  else if has_key arc_data "relationship_stages" then entry "relationship_stages"
  else if has_key arc_data "mystery_elements" then entry "mystery_elements"
  else Ok None.

Fixpoint genre_stages (position : Q) (primary_genre secondary_genre : string)
    (arcs : list (string * dict)) (acc : dict) : result dict :=
  match arcs with
  | [] => Ok acc
  | (genre, arc_data) :: arcs' =>
      entry ← genre_stage position primary_genre secondary_genre genre arc_data;
      genre_stages position primary_genre secondary_genre arcs'
        (match entry with
         | Some e => set_item acc genre e
         | None => acc
         end)
  end.

Definition _determine_genre_emphasis (s : self) (chapter_num : Z) : result dict :=
  total ← total_chapters s;
  position ← chapter_position chapter_num total;
  let '(focus, phase) := phase_of position in
  let count := Z.of_nat (length (genres s)) in
  primary_index ← mod_ (chapter_num - 1) count;
  secondary_index ← mod_ (primary_index + 1) count;
  primary_genre ← index (genres s) primary_index;
  secondary_genre ← index (genres s) secondary_index;
  stages ← genre_stages position primary_genre secondary_genre (genre_arcs s) [];
  Ok [("chapter_position", VStr (pretty chapter_num +:+ "/" +:+ pretty total));
      ("narrative_phase", VStr phase);
      ("focus", VStr focus);
      ("primary_genre", VStr primary_genre);
      ("secondary_genre", VStr secondary_genre);
      ("genre_stages", VDict stages);
      ("blend_recommendation",
       VStr ("This chapter should primarily emphasize " +:+ primary_genre +:+
             " elements while incorporating supporting elements from " +:+
             secondary_genre +:+ "."))].

Definition default_phase (position : Q) : string :=
  if Qle_bool position (1 # 4) then "introduction"
  else if Qle_bool position (3 # 4) then "development"
  else "resolution".

Definition default_genre_element (phase genre : string) : string :=
  let genre_lower := lower genre in
  if contains "romance" genre_lower then
    if String.eqb phase "introduction"
    then "Initial attraction between characters (Romance)"
    else if String.eqb phase "development"
    then "Relationship complications and growth (Romance)"
    else "Romantic resolution or commitment (Romance)"
  else if contains "mystery" genre_lower then
    if String.eqb phase "introduction"
    then "Mystery setup and initial clues (Mystery)"
    else if String.eqb phase "development"
    then "Investigation progress and red herrings (Mystery)"
    else "Mystery revelation and resolution (Mystery)"
  else if contains "adventure" genre_lower then
    if String.eqb phase "introduction"
    then "Journey beginning and initial challenges (Adventure)"
    else if String.eqb phase "development"
    then "Overcoming obstacles and character growth (Adventure)"
    else "Final challenge and triumphant return (Adventure)"
  else genre +:+ " elements appropriate for the " +:+ phase +:+ " phase".

Definition _get_default_genre_elements (s : self) (chapter_num : Z)
    : result value :=
  total ← total_chapters s;
  position ← chapter_position chapter_num total;
  let phase := default_phase position in
  Ok (strings (default_genre_element phase <$> genres s)).

(** The first stage list an arc has, as the loops over the six keys find
    it. *)
Definition stage_list (arc_data : dict) : option value :=
  list_find (has_key arc_data) stage_list_keys ≫= λ ik,
  dict_lookup arc_data ik.2.

Definition next_stage (arc_data : dict) : result (option string) :=
  match stage_list arc_data with
  | None => Ok None
  | Some stages =>
      n ← len stages;
      match get arc_data "current_stage" (VInt 0) with
      | VInt current_stage =>
          stage ← stage_at stages (Z.min (current_stage + 1) (n - 1));
          Ok (Some (str stage))
      | VBool b =>
          stage ← stage_at stages (Z.min ((if b then 1 else 0) + 1) (n - 1));
          Ok (Some (str stage))
      | _ => Raise TypeError
      end
  end.

Definition _get_genre_trajectory (s : self) (next_chapter_num : Z)
    : result string :=
  total ← total_chapters s;
  if total <? next_chapter_num then
    Ok "This is the conclusion - all genre elements should be resolved."
  else
    primary_index ← mod_ (next_chapter_num - 1) (Z.of_nat (length (genres s)));
    primary_genre ← index (genres s) primary_index;
    stage ← match list_find (λ ga, ga.1 = primary_genre) (genre_arcs s) with
            | Some (_, (_, arc_data)) => next_stage arc_data
            | None => Ok None
            end;
    Ok ("Next chapter should advance the " +:+ primary_genre +:+
        " elements toward " +:+ default "development" stage +:+ ".").

(** *** Methods that write *)

(** [if k in chapter: ... else: chapter[k] = []], for a field that has to
    be a list. *)
Definition ensure_list (chapter : dict) (k : string) : dict :=
  match dict_lookup chapter k with
  | Some (VStr t) =>
      set_item chapter k (if String.eqb t "" then VList [] else VList [VStr t])
  | Some VNone => set_item chapter k (VList [])
  | Some _ => chapter
  | None => set_item chapter k (VList [])
  end.

Definition _validate_chapter_fields (chapter : dict) : dict :=
  foldl ensure_list chapter
    ["key_events"; "next_chapter_hooks"; "cultural_elements_used";
     "genre_elements_used"].

Definition set_genre_arcs (arcs : list (string * dict)) : M unit :=
  λ s, (Ok tt, Self (story_outline s) (genres s) (context_manager s) arcs).

(** The arc of a genre, as the loops over [self.genre_arcs.items()] hold
    it. *)
Definition arc_of (genre : string) : M dict :=
  s ← get_state;
  match list_find (λ ga, ga.1 = genre) (genre_arcs s) with
  | Some (_, (_, arc_data)) => mret arc_data
  | None => lift (Raise KeyError)
  end.

(** [arc_data[key].append(element)] *)
Definition arc_append (genre key : string) (element : value) : M unit :=
  arc_data ← arc_of genre;
  items ← lift (getitem arc_data key);
  appended ← lift (list_append items element);
  s ← get_state;
  set_genre_arcs (set_arc (genre_arcs s) genre (set_item arc_data key appended)).

Definition when (b : bool) (m : M unit) : M unit := if b then m else mret tt.

(** The body of the loop over the arcs, for one element. *)
Definition track_element (element : value) (element_lower genre : string)
    : M unit :=
  let genre_lower := lower genre in
  let has (word : string) : bool := contains word element_lower in
  (if contains "romance" genre_lower && (has "relationship" || has "romantic") then
     arc_append genre "key_moments" element ;;
     when (has "emotional") (arc_append genre "emotional_beats" element)
   else if contains "mystery" genre_lower &&
           (has "clue" || has "reveal" || has "mystery") then
     if has "reveal" || has "solution"
     then arc_append genre "revelations" element
     else arc_append genre "open_questions" element
   else if contains "adventure" genre_lower &&
           (has "journey" || has "challenge" || has "quest") then
     when (has "location" || has "place")
       (arc_append genre "locations" element) ;;
     when (has "achieve" || has "overcome")
       (arc_append genre "achievements" element)
   else mret tt) ;;
  when (contains genre_lower element_lower)
    (arc_append genre "key_elements" element ;;
     arc_append genre "genre_markers" element).

(** The stage an arc is set to for the position of the chapter. *)
Definition set_current_stage (position : Q) (genre : string) : M unit :=
  arc_data ← arc_of genre;
  match stage_list arc_data with
  | Some stages =>
      i ← lift (stage_index position stages);
      s ← get_state;
      set_genre_arcs
        (set_arc (genre_arcs s) genre (set_item arc_data "current_stage" (VInt i)))
  | None => mret tt
  end.

Definition _update_genre_arcs (chapter : dict) (chapter_num : Z) : M unit :=
  let genre_elements :=
    match get chapter "genre_elements_used" (VList []) with
    | VStr t => VList [VStr t]
    | v => v
    end in
  elements ← lift (iter genre_elements);
  for_each elements (λ element,
    element_lower ← lift (str_lower element);
    s ← get_state;
    for_each (genre_arcs s).*1 (track_element element element_lower)) ;;
  s ← get_state;
  total ← lift (total_chapters s);
  position ← lift (chapter_position chapter_num total);
  for_each (genre_arcs s).*1 (set_current_stage position).

(** A call of a method of the context manager. *)
Definition on_context_manager {A} (m : ContextManager.M A) : M A :=
  λ s, let '(r, cm) := m (context_manager s) in
       (r, Self (story_outline s) (genres s) cm (genre_arcs s)).

Section Generate.
(** The outcome of [parser.parse(response.content)] for the prompt of the
    chapter; the call of the model and the parser of the response are
    outside the repository. *)
Variable parsed : result dict.
Variable chapter_num : Z.

(** The body of the [try] statement. *)
Definition parse_chapter : M dict :=
  chapter ← lift parsed;
  let chapter := set_item chapter "chapter_number" (VInt chapter_num) in
  let chapter := _validate_chapter_fields chapter in
  _update_genre_arcs chapter chapter_num ;;
  let chapter :=
    if negb (has_key chapter "next_chapter_hooks") ||
       negb (truthy (get chapter "next_chapter_hooks" VNone))
    then set_item chapter "next_chapter_hooks" (VList [])
    else chapter in
  let hooks := get chapter "next_chapter_hooks" (VList []) in
  present ← lift (contains_item "genre_trajectory" hooks);
  if (present : bool) then mret chapter
  else
    match hooks with
    | VList _ =>
        s ← get_state;
        trajectory ← lift (_get_genre_trajectory s (chapter_num + 1));
        appended ← lift (list_append hooks (VStr trajectory));
        mret (set_item chapter "next_chapter_hooks" appended)
    | _ => lift (Raise AttributeError)
    end.

(** The handler of the [try] statement. *)
Definition fallback_chapter (chapter_outline : dict) : M dict :=
  s ← get_state;
  genre_elements ← lift (_get_default_genre_elements s chapter_num);
  mret [("chapter_number", VInt chapter_num);
        ("title",
         get chapter_outline "title" (VStr ("Chapter " +:+ pretty chapter_num)));
        ("content", VStr "Error generating chapter content.");
        ("summary", get chapter_outline "summary" (VStr "Summary not available."));
        ("key_events", VList []);
        ("character_development", VStr "No character development tracked.");
        ("cultural_elements_used", VList []);
        ("genre_elements_used", genre_elements);
        ("next_chapter_hooks", VList [])].

Definition generate_chapter : M dict :=
  s ← get_state;
  chapter_outline ← lift (_get_chapter_outline s chapter_num);
  previous_context ←
    on_context_manager (ContextManager.get_context_for_chapter chapter_num);
  genre_guidance ← lift (_determine_genre_emphasis s chapter_num);
  try_except parse_chapter (λ _, fallback_chapter chapter_outline).
End Generate.

(** The fields of the chapter schema. *)
Definition chapter_schema : list string :=
  ["title"; "content"; "summary"; "key_events"; "character_development";
   "cultural_elements_used"; "genre_elements_used"; "next_chapter_hooks"].

End ChapterGenerator.

(** ** Notions used to state the properties of the context manager *)

Module Store.
Import ContextManager.

(** The store refers to a list object that exists.  [__init__] establishes
    this and every method keeps it. *)
Definition wf (s : state) : Prop := (context_points s < length (objects s))%nat.

(** The state after [created] has been appended to the store. *)
Definition push (created : list Point.t) (s : state) : state :=
  State (alter (λ l, l ++ created) (context_points s) (objects s))
        (context_points s) (chapter_summaries s).

Definition with_summary (n : Z) (v : Summary.t) (s : state) : state :=
  State (objects s) (context_points s) (<[n := v]> (chapter_summaries s)).

(** The summary [update_with_chapter] stores for a chapter. *)
Definition summary_of (chapter : dict) (n : Z) : Summary.t :=
  Summary.Build
    (get chapter "title" (VStr ("Chapter " +:+ pretty n)))
    (get chapter "summary" (VStr "No summary available."))
    (get chapter "key_events" (VList [])).

(** The point [add_context_point] appends. *)
Definition mk_point (n : Z) (importance ty : string) (content : value) : Point.t :=
  Point.Build content n importance ty (weight_map (lower importance)).

Definition event_point (n : Z) (text : string) : Point.t :=
  mk_point n (event_importance (lower text)) "event" (VStr text).

(** The body of the loop over [key_events]. *)
Definition event_body (n : Z) (event : value) : M unit :=
  low ← lift (str_lower event);
  add_context_point event n (event_importance low) "event".

Definition character_points (n : Z) (v : value) : list Point.t :=
  match v with
  | VStr t =>
      if String.eqb t "" then []
      else [mk_point n "high" "character_development" v]
  | VList devs => mk_point n "high" "character_development" <$> devs
  | _ => []
  end.

Definition hook_points (n : Z) (hooks : list value) : list Point.t :=
  mk_point n "high" "hook" <$> hooks.

(** What holds of the points made from [character_development] and from
    [next_chapter_hooks]. *)
Definition later_point (n : Z) (p : Point.t) : Prop :=
  Point.chapter p = n ∧ Point.importance p = "high" ∧ Point.weight p = 3 ∧
  (Point.type p = "character_development" ∨ Point.type p = "hook").

(** The effect of [_prune_context] on the points of the store. *)
Definition pruned (l : list Point.t) : list Point.t :=
  if MAX_CONTEXT_ITEMS * 3 <? Z.of_nat (length l)
  then slice_to (MAX_CONTEXT_ITEMS * 2) (PySort.sort_reverse sort_key l)
  else l.

Definition relevant (n : Z) (l : list Point.t) : list Point.t :=
  filter (λ p, Point.chapter p < n) l.

Definition contents_of (ty : string) (l : list Point.t) : list value :=
  Point.content <$> filter (λ p, Point.type p = ty) l.

(** What the list [held] of a bundle for chapter [n] shows of the points of
    type [ty]: only contents of stored points of that type from earlier
    chapters, and all of them when they are at most [MAX_CONTEXT_ITEMS]. *)
Definition shows (n : Z) (pts : list Point.t) (ty : string)
    (held : list value) : Prop :=
  (∀ v, v ∈ held →
     ∃ p, p ∈ pts ∧ Point.chapter p < n ∧ Point.type p = ty ∧
          Point.content p = v) ∧
  (Z.of_nat (length (filter (λ p, Point.type p = ty ∧ Point.chapter p < n) pts))
     ≤ MAX_CONTEXT_ITEMS →
   ∀ p, p ∈ pts → Point.chapter p < n → Point.type p = ty →
        Point.content p ∈ held).

(** [word] occurs in [text] when letter case is ignored. *)
Definition mentions (word text : string) : Prop :=
  ∃ pre mid post, text = pre +:+ mid +:+ post ∧ lower mid = word.

(** The chapters whose fields [update_with_chapter] can walk through: the
    key events are strings and the hooks can be iterated over. *)
Definition extractable (chapter : dict) : Prop :=
  (∃ texts,
     iter (listify (get chapter "key_events" (VList []))) = Ok (VStr <$> texts)) ∧
  is_ok (iter (listify (get chapter "next_chapter_hooks" (VList [])))) = true.

(** The points a call of [update_with_chapter] has appended when it reaches
    the pruning call. *)
Definition created (chapter : dict) (n : Z) (s : state) : list Point.t :=
  drop (length (points s)) (points (record_chapter chapter n s).2).

(** The key events the loop of [update_with_chapter] gets through, and how
    the loop ends: it raises at the first event that is not a string. *)
Fixpoint event_texts (events : list value) : list string * result unit :=
  match events with
  | [] => ([], Ok tt)
  | VStr t :: events' =>
      let '(texts, r) := event_texts events' in (t :: texts, r)
  | _ :: _ => ([], Raise AttributeError)
  end.

(** The points [update_with_chapter] appends for a chapter before it
    prunes, and how the walk through the fields of the chapter ends. *)
Definition extracted (chapter : dict) (n : Z) : list Point.t * result unit :=
  match iter (listify (get chapter "key_events" (VList []))) with
  | Raise e => ([], Raise e)
  | Ok events =>
      let '(texts, r) := event_texts events in
      match r with
      | Raise e => (event_point n <$> texts, Raise e)
      | Ok _ =>
          let made :=
            (event_point n <$> texts) ++
            character_points n (get chapter "character_development" (VStr "")) in
          match iter (listify (get chapter "next_chapter_hooks" (VList []))) with
          | Raise e => (made, Raise e)
          | Ok hooks => (made ++ hook_points n hooks, Ok tt)
          end
      end
  end.

(** A run of calls of [update_with_chapter], as the chapter loop makes
    them. *)
Definition updates (calls : list (dict * Z)) : M unit :=
  for_each calls (λ call, update_with_chapter call.1 call.2).

(** What holds of every point [update_with_chapter] makes: its weight is
    the one of its importance, and its type is one of the three the
    retrieval looks for. *)
Definition well_made (p : Point.t) : Prop :=
  (Point.importance p = "high" ∧ Point.weight p = 3 ∨
   Point.importance p = "medium" ∧ Point.weight p = 2) ∧
  (Point.type p = "event" ∨ Point.type p = "character_development" ∨
   Point.type p = "hook").

(** Sample inputs: a chapter as the generator returns it, a chapter whose
    key events came back as one string, and stores built from them. *)
Definition sample_chapter : dict :=
  [("title", VStr "The Letter");
   ("summary", VStr "A letter arrives.");
   ("key_events", VList [VStr "A letter arrives"; VStr "A CRITICAL clue is lost"]);
   ("character_development", VStr "Asha grows wary");
   ("next_chapter_hooks", VList [VStr "Who sent the letter?"])].

Definition string_chapter : dict :=
  [("title", VStr "The Letter");
   ("key_events", VStr "Hero found the letter")].

Definition sample_store : state := (update_with_chapter sample_chapter 1 init).2.

(** A chapter with [k] key events, and a store that holds 44 points. *)
Definition busy_chapter (k : nat) : dict :=
  [("key_events", VList ((λ i, VStr ("event " +:+ pretty i)) <$> seq 0 k))].

Definition full_store : state := (update_with_chapter (busy_chapter 44) 1 init).2.

(** A chapter whose key events are 46 strings followed by a number. *)
Definition ill_typed_chapter : dict :=
  [("key_events",
    VList (((λ i, VStr ("event " +:+ pretty i)) <$> seq 0 46) ++ [VInt 0]))].

End Store.

(** ** The run of the end-to-end scenario: one genre, four chapters *)

Module Scenario.

Definition mystery_outline : dict :=
  [("title", VStr "Untitled Story");
   ("chapters",
    VList (StoryFoundation.placeholder "Mystery" "Fast-paced" <$> [0; 1; 2; 3]));
   ("genres", VList [VStr "Mystery"])].

Definition mystery_generator : ChapterGenerator.self :=
  ChapterGenerator.init mystery_outline ["Mystery"] ContextManager.init.

End Scenario.

(** ** Notions used to state the properties of the outline stage *)

Module Outlines.


(** An outline after [if k not in chapter: chapter[k] = dflt]. *)
Definition default_key (k : string) (dflt : value) (chapter : value) : value :=
match chapter with
| VDict d => if has_key d k then chapter else VDict (set_item d k dflt)
| _ => chapter
end.

Definition with_defaults (genres_str narrative_pacing : string)
  (chapter : value) : value :=
default_key "narrative_progression"
  (VStr ("Moving forward with " +:+ narrative_pacing +:+ " pace"))
  (default_key "genre_elements"
     (VStr ("Incorporating elements of " +:+ genres_str)) chapter).

End Outlines.

(** ** Notions used to state the properties of the chapter generator *)

Module Chapters.
Import ChapterGenerator.

(** The value [_validate_chapter_fields] leaves in a field that has to be a
    list, from what the field held. *)
Definition listed (held : option value) : value :=
  match held with
  | Some (VStr t) => if String.eqb t "" then VList [] else VList [VStr t]
  | Some VNone | None => VList []
  | Some v => v
  end.

Definition list_fields : list string :=
  ["key_events"; "next_chapter_hooks"; "cultural_elements_used";
   "genre_elements_used"].

(** An outline that is not the one of chapter [n]. *)
Definition other_chapter (n : Z) (outline : dict) : Prop :=
  eq_int (get outline "chapter_number" VNone) n = false.

(** One round of the chapter loop of [generate_full_story] and of [main]:
    the chapter is generated and the context manager is updated with it.
    Saving the chapter to disk is left out. *)
Definition chapter_round (parsed : result dict) (chapter_num : Z) : M dict :=
  chapter ← generate_chapter parsed chapter_num;
  on_context_manager (ContextManager.update_with_chapter chapter chapter_num) ;;
  mret chapter.

(** The point the context manager makes of the character development of a
    fallback chapter. *)
Definition fallback_point (n : Z) : Point.t :=
  Store.mk_point n "high" "character_development"
    (VStr "No character development tracked.").

(** The state in which [generate_chapter] reaches the [try] statement:
    the call for the context of the chapter has left a list object in the
    context manager. *)
Definition at_parser (n : Z) (s : self) : self :=
  Self (story_outline s) (genres s)
       (ContextManager.get_context_for_chapter n (context_manager s)).2
       (genre_arcs s).







End Chapters.

(** ** The story outline ([generate_story_outline]) and the generator made
    from it *)

Module StoryOutline.

Section Outline.
(** The outcomes of [parser.parse(response.content)] for the story
    foundation and for the chapter outlines. *)
Variables (parsed_story parsed_chapters : result dict).
Variables (plot_concept region narrative_tone narrative_pacing : string).
Variables (num_chapters : Z) (genres : list string).


End Outline.


End StoryOutline.

(** * Properties *)

(** ** The monad and the sort *)

Lemma bind_run {S A B} (m : Py.M S A) (f : A → Py.M S B) s :
  (m ≫= f) s =
  match m s with (Ok a, s') => f a s' | (Raise e, s') => (Raise e, s') end.
Proof. reflexivity. Qed.


Lemma result_bind_run {A B} (a : A) (f : A → result B) : (Ok a ≫= f) = f a.
Proof. reflexivity. Qed.

Lemma result_bind_ok {A B} (r : result A) (f : A → result B) :
  is_ok (r ≫= f) = true → ∃ a, r = Ok a ∧ is_ok (f a) = true.
Proof. destruct r as [a|e]; [by exists a | done]. Qed.

Lemma lift_run {S A} (r : result A) (s : S) : lift r s = (r, s).
Proof. reflexivity. Qed.

Module PySortFacts.
Import PySort.

Lemma key_lt_spec a b :
  key_lt a b = true ↔ a.1 < b.1 ∨ (a.1 = b.1 ∧ a.2 < b.2).
Proof. unfold key_lt. destruct a, b; simpl. lia. Qed.

Lemma key_lt_false a b : key_lt a b = false ↔ key_ge a b.
Proof.
  unfold key_ge. rewrite <- not_true_iff_false, key_lt_spec.
  destruct a, b; simpl. lia.
Qed.

Lemma key_lt_ge a b : key_lt a b = true → key_ge b a.
Proof. rewrite key_lt_spec. unfold key_ge. lia. Qed.

Lemma key_ge_refl a : key_ge a a.
Proof. unfold key_ge. lia. Qed.

Lemma key_ge_antisym a b : key_ge a b → key_ge b a → a = b.
Proof. unfold key_ge. destruct a, b; simpl. intros ??. f_equal; lia. Qed.

Lemma key_ge_trans a b c : key_ge a b → key_ge b c → key_ge a c.
Proof. unfold key_ge. lia. Qed.

Section Facts.
Context {A : Type} (key : A → Z * Z).

Lemma insert_desc_perm x l : insert_desc key x l ≡ₚ x :: l.
Proof.
  induction l as [|y l IH]; simpl; [done|].
  destruct (key_lt (key x) (key y)); [|done].
  rewrite IH. apply perm_swap.
Qed.

Lemma sort_reverse_perm l : sort_reverse key l ≡ₚ l.
Proof.
  induction l as [|x l IH]; simpl; [done|].
  by rewrite insert_desc_perm, IH.
Qed.

Lemma sort_reverse_length l : length (sort_reverse key l) = length l.
Proof. by rewrite sort_reverse_perm. Qed.

Lemma insert_desc_descending x l :
  descending key l → descending key (insert_desc key x l).
Proof.
  unfold descending. induction 1 as [|y l Hl IH Hy]; simpl.
  - repeat constructor.
  - destruct (key_lt (key x) (key y)) eqn:E.
    + constructor; [done|].
      rewrite insert_desc_perm. constructor; [by apply key_lt_ge | done].
    + apply key_lt_false in E. constructor; [by constructor|].
      constructor; [done|].
      eapply Forall_impl; [exact Hy|]. intros z Hz. simpl in *.
      by eapply key_ge_trans.
Qed.

Lemma sort_reverse_descending l : descending key (sort_reverse key l).
Proof.
  induction l as [|x l IH]; simpl; [constructor|].
  by apply insert_desc_descending.
Qed.

(** Stability: the items that share a key come out in the order in which
    they went in. *)
Lemma insert_desc_stable k x l :
  filter (λ y, key y = k) (insert_desc key x l) =
  filter (λ y, key y = k) (x :: l).
Proof.
  induction l as [|y l IH]; [done|].
  cbn [insert_desc]. destruct (key_lt (key x) (key y)) eqn:E; [|done].
  rewrite (filter_cons _ y), IH, !filter_cons.
  repeat case_decide; try done.
  assert (key x = key y) as Heq by congruence.
  rewrite Heq in E. apply key_lt_spec in E. lia.
Qed.

Lemma sort_reverse_stable k l :
  filter (λ y, key y = k) (sort_reverse key l) =
  filter (λ y, key y = k) l.
Proof.
  induction l as [|x l IH]; [done|].
  cbn [sort_reverse]. by rewrite insert_desc_stable, !filter_cons, IH.
Qed.

Lemma descending_head_max x l y :
  descending key (x :: l) → y ∈ x :: l → key_ge (key x) (key y).
Proof.
  intros Hl Hy. apply StronglySorted_inv in Hl as [_ Hx].
  apply elem_of_cons in Hy as [->|Hy]; [apply key_ge_refl|].
  rewrite Forall_forall in Hx. by apply Hx.
Qed.

Lemma elem_of_same_key (l : list A) y :
  y ∈ l ↔ y ∈ filter (λ z, key z = key y) l.
Proof. rewrite list_elem_of_filter. tauto. Qed.

(** A stable descending sort has one possible result, so the lists below
    do not depend on how Python sorts: a descending list that keeps the
    items of each key in their original order is the sorted list. *)
Lemma descending_stable_unique (l1 l2 : list A) :
  descending key l1 → descending key l2 →
  (∀ k, filter (λ y, key y = k) l1 = filter (λ y, key y = k) l2) →
  l1 = l2.
Proof.
  revert l2. induction l1 as [|x l1 IH]; intros l2 H1 H2 Hsame.
  - destruct l2 as [|y l2]; [done|].
    specialize (Hsame (key y)). rewrite filter_nil, filter_cons_True in Hsame; done.
  - destruct l2 as [|y l2].
    { specialize (Hsame (key x)). rewrite filter_nil, filter_cons_True in Hsame; done. }
    assert (key x = key y) as Hkey.
    { apply key_ge_antisym.
      - apply (descending_head_max x l1); [done|].
        apply elem_of_same_key. rewrite Hsame.
        apply list_elem_of_filter. split; [done|left].
      - apply (descending_head_max y l2); [done|].
        apply elem_of_same_key. rewrite <- Hsame.
        apply list_elem_of_filter. split; [done|left]. }
    assert (x = y) as <-.
    { specialize (Hsame (key x)).
      rewrite !filter_cons_True in Hsame by done. congruence. }
    f_equal. apply IH.
    + by apply StronglySorted_inv in H1 as [? _].
    + by apply StronglySorted_inv in H2 as [? _].
    + intros k. specialize (Hsame k). rewrite !filter_cons in Hsame.
      destruct (decide (key x = k)); congruence.
Qed.

Lemma sort_reverse_characterised (l sorted : list A) :
  descending key sorted →
  (∀ k, filter (λ y, key y = k) sorted = filter (λ y, key y = k) l) →
  sorted = sort_reverse key l.
Proof.
  intros Hd Hs. apply descending_stable_unique; [done|..].
  - apply sort_reverse_descending.
  - intros k. by rewrite Hs, sort_reverse_stable.
Qed.

(** In a descending list an earlier item never has the smaller key. *)
Lemma descending_lookup l i j x y :
  descending key l → (i < j)%nat → l !! i = Some x → l !! j = Some y →
  key_ge (key x) (key y).
Proof.
  unfold descending. intros Hl. revert i j x y.
  induction Hl as [|z l Hl IH Hz]; intros i j x y Hij Hi Hj; [done|].
  destruct j as [|j]; [lia|]. simpl in Hj.
  destruct i as [|i]; simpl in Hi.
  - injection Hi as ->. rewrite Forall_forall in Hz. apply Hz.
    by eapply list_elem_of_lookup_2.
  - eapply IH; [|done..]. lia.
Qed.
End Facts.
End PySortFacts.
(** ** The context manager *)

Module StoreFacts.
Import ContextManager Store PySortFacts.


Lemma push_nil s : push [] s = s.
Proof.
  destruct s as [o r m]. unfold push; simpl. f_equal.
  apply list_alter_id. intros l. apply app_nil_r.
Qed.

Lemma push_push c1 c2 s : push c2 (push c1 s) = push (c1 ++ c2) s.
Proof.
  destruct s as [o r m]. unfold push; simpl. f_equal.
  rewrite list_alter_alter_eq. apply list_alter_ext; [|done].
  intros l _ ; simpl. by rewrite app_assoc.
Qed.

Lemma points_push c s : wf s → points (push c s) = points s ++ c.
Proof.
  destruct s as [o r m]. unfold wf, points, deref, push; simpl. intros Hr.
  rewrite list_lookup_alter_eq.
  destruct (lookup_lt_is_Some_2 o r Hr) as [l ->]. done.
Qed.

Lemma wf_push c s : wf s → wf (push c s).
Proof. destruct s. unfold wf, push; simpl. by rewrite length_alter. Qed.

Lemma summaries_push c s : chapter_summaries (push c s) = chapter_summaries s.
Proof. done. Qed.

#[local] Arguments add_context_point : simpl never.
#[local] Arguments push : simpl never.
#[local] Arguments _prune_context : simpl never.

Lemma add_context_point_run content n imp ty s :
  add_context_point content n imp ty s = (Ok tt, push [mk_point n imp ty content] s).
Proof. reflexivity. Qed.

Lemma for_each_add items n imp ty s :
  for_each items (λ x, add_context_point x n imp ty) s =
  (Ok tt, push (mk_point n imp ty <$> items) s).
Proof.
  revert s. induction items as [|x items IH]; intros s; simpl.
  - by rewrite push_nil.
  - rewrite bind_run, add_context_point_run, IH, push_push. done.
Qed.



Lemma events_loop_texts texts n s :
  for_each (VStr <$> texts) (event_body n) s =
  (Ok tt, push (event_point n <$> texts) s).
Proof.
  revert s. induction texts as [|t texts IH]; intros s; simpl.
  - by rewrite push_nil.
  - rewrite bind_run. unfold event_body at 1. rewrite bind_run, lift_run.
    cbn [str_lower]. rewrite add_context_point_run, IH, push_push. done.
Qed.

Lemma events_loop_any events n s :
  ∃ texts r,
    for_each events (event_body n) s = (r, push (event_point n <$> texts) s) ∧
    (r = Ok tt ↔ events = VStr <$> texts) ∧
    ∀ all, events = VStr <$> all → texts = all.
Proof.
  revert s. induction events as [|e events IH]; intros s.
  - exists [], (Ok tt). split_and!; [by rewrite push_nil|done|].
    by intros [|??] ?.
  - cbn [for_each]. rewrite bind_run. unfold event_body at 1.
    rewrite bind_run, lift_run.
    destruct e as [| | |t| |]; cbn [str_lower];
      try (exists [], (Raise AttributeError);
           split_and!; [by rewrite push_nil | done | by intros [|??] ?]).
    rewrite add_context_point_run.
    destruct (IH (push [mk_point n (event_importance (lower t)) "event" (VStr t)] s))
      as (texts & r & -> & Hok & Hall).
    exists (t :: texts), r. split_and!; [by rewrite push_push| |].
    + rewrite Hok. cbn [fmap list_fmap]. split; [by intros ->|].
      by intros [= ?].
    + intros [|t' all] Heq; [done|]. injection Heq as -> ->.
      by rewrite (Hall all eq_refl).
Qed.

Lemma character_points_later n v : Forall (later_point n) (character_points n v).
Proof.
  destruct v as [| | |t|devs|]; simpl; try constructor.
  - destruct (String.eqb t ""); repeat constructor.
  - induction devs; simpl; constructor; auto. repeat split; auto.
Qed.

Lemma hook_points_later n hooks : Forall (later_point n) (hook_points n hooks).
Proof.
  induction hooks; simpl; constructor; auto. repeat split; auto.
Qed.

Lemma character_stage_run n v s :
  match v with
  | VStr t =>
      if String.eqb t "" then mret tt
      else add_context_point v n "high" "character_development"
  | VList devs =>
      for_each devs (λ dev,
        add_context_point dev n "high" "character_development")
  | _ => mret tt
  end s = (Ok tt, push (character_points n v) s).
Proof.
  destruct v as [| | |t|devs|]; simpl; try by rewrite push_nil.
  - destruct (String.eqb t ""); [by rewrite push_nil|].
    by rewrite add_context_point_run.
  - by rewrite for_each_add.
Qed.

Lemma record_chapter_run chapter n s :
  ∃ (texts : list string) (others : list Point.t) r,
    record_chapter chapter n s =
      (r, push ((event_point n <$> texts) ++ others)
            (with_summary n (summary_of chapter n) s)) ∧
    Forall (later_point n) others ∧
    (r = Ok tt ↔ extractable chapter) ∧
    ∀ all, iter (listify (get chapter "key_events" (VList []))) = Ok (VStr <$> all) →
      texts = all.
Proof.
  unfold record_chapter, extractable. rewrite bind_run.
  change (set_chapter_summary n _ s) with
    (Ok tt, with_summary n (summary_of chapter n) s).
  cbv beta iota zeta. set (s0 := with_summary _ _ s).
  rewrite bind_run, lift_run.
  destruct (iter (listify (get chapter "key_events" (VList [])))) as [events|e].
  2:{ exists [], [], (Raise e). rewrite push_nil.
      split_and!; [done|constructor| |done].
      split; [done|]. by intros [[? ?] _]. }
  rewrite bind_run.
  destruct (events_loop_any events n s0) as (texts & r1 & Hloop & Hok & Hall).
  change (for_each events _ s0) with (for_each events (event_body n) s0).
  rewrite Hloop.
  destruct r1 as [[]|e].
  2:{ exists texts, [], (Raise e). rewrite app_nil_r.
      split_and!; [done|constructor| |].
      - split; [done|]. intros [[all [= Hev]] _].
        rewrite (Hall all Hev) in Hok. by apply Hok in Hev.
      - intros all [= Hev]. by apply Hall. }
  cbv zeta. rewrite bind_run, character_stage_run, push_push.
  rewrite bind_run, lift_run.
  destruct (iter (listify (get chapter "next_chapter_hooks" (VList [])))) as [hooks|e].
  - exists texts, (character_points n (get chapter "character_development" (VStr ""))
                    ++ hook_points n hooks), (Ok tt).
    rewrite for_each_add, push_push, <- app_assoc. split_and!; [done| | |].
    + apply Forall_app; auto using character_points_later, hook_points_later.
    + split; [|done]. intros _. split; [|done].
      exists texts. f_equal. by apply Hok.
    + intros all [= Hev]. by apply Hall.
  - exists texts, (character_points n (get chapter "character_development" (VStr ""))),
      (Raise e).
    split_and!; [done|apply character_points_later| |].
    + split; [done|]. by intros [_ ?].
    + intros all [= Hev]. by apply Hall.
Qed.

Lemma deref_new o r m l f :
  deref (length o) (State (alter f (length o) (o ++ [l])) r m) = f l.
Proof.
  unfold deref; simpl. rewrite list_lookup_alter_eq.
  rewrite lookup_app_r by lia. by rewrite Nat.sub_diag.
Qed.

Lemma alter_new {A} (f : A → A) (o : list A) l :
  alter f (length o) (o ++ [l]) = o ++ [f l].
Proof.
  replace (length o) with (length o + 0)%nat at 1 by lia.
  by rewrite alter_app_r.
Qed.

Lemma prune_run s :
  wf s →
  ∃ s', _prune_context s = (Ok tt, s') ∧ wf s' ∧
        chapter_summaries s' = chapter_summaries s ∧
        points s' = pruned (points s).
Proof.
  intros Hwf. unfold _prune_context, pruned.
  rewrite bind_run. change (get_context_points s) with (Ok (context_points s), s).
  cbv beta iota. rewrite bind_run.
  change (read (context_points s) s) with (Ok (points s), s). cbv beta iota.
  destruct (MAX_CONTEXT_ITEMS * 3 <? Z.of_nat (length (points s))).
  2:{ exists s. done. }
  destruct s as [o r m]. unfold wf in Hwf; simpl in Hwf.
  eexists. split; [reflexivity|]. cbn.
  split_and!; [|done|].
  - unfold wf; simpl. rewrite length_app, length_alter. simpl. lia.
  - unfold points, deref; simpl.
    rewrite lookup_app_r by (rewrite length_alter; lia).
    rewrite length_alter, Nat.sub_diag. simpl.
    rewrite list_lookup_alter_eq.
    destruct (lookup_lt_is_Some_2 o r Hwf) as [l ->]. done.
Qed.


Lemma get_context_run n s :
  n ≠ 1 →
  get_context_for_chapter n s =
  (let sorted := PySort.sort_reverse sort_key (relevant n (points s)) in
   (Ok (Context.Build
          (omap (λ i, chapter_summaries s !! i) (range 1 n))
          (slice_to MAX_CONTEXT_ITEMS (contents_of "event" sorted))
          (slice_to MAX_CONTEXT_ITEMS (contents_of "character_development" sorted))
          (slice_to MAX_CONTEXT_ITEMS (contents_of "hook" sorted))),
    State (objects s ++ [sorted]) (context_points s) (chapter_summaries s))).
Proof.
  intros Hn. unfold get_context_for_chapter.
  destruct (n =? 1) eqn:E; [lia|]. clear E.
  destruct s as [o r m].
  unfold get_chapter_summaries, get_context_points, read, new_list, sort, modify.
  repeat (rewrite bind_run; cbv beta iota).
  cbn [objects context_points chapter_summaries].
  rewrite alter_new. unfold deref, points, deref. cbn [objects context_points].
  rewrite lookup_app_r by lia. rewrite Nat.sub_diag. done.
Qed.

(** *** Strings: what [in] and [lower] compute *)

Lemma append_cons c a b : String c a +:+ b = String c (a +:+ b).
Proof. reflexivity. Qed.

Lemma append_nil b : "" +:+ b = b.
Proof. reflexivity. Qed.

Lemma prefix_spec sub s :
  String.prefix sub s = true ↔ ∃ post, s = sub +:+ post.
Proof.
  revert s. induction sub as [|c sub IH]; intros s.
  - split; [intros _; by exists s | by destruct s].
  - destruct s as [|c' s]; simpl; [split; [done | by intros [? ?]]|].
    setoid_rewrite append_cons.
    destruct (Ascii.ascii_dec c c') as [->|Hne].
    + rewrite IH. split; intros [post Hp]; exists post; congruence.
    + split; [done|]. intros [post Hp]. congruence.
Qed.

Lemma contains_spec sub s :
  contains sub s = true ↔ ∃ pre post, s = pre +:+ sub +:+ post.
Proof.
  induction s as [|c s IH]; cbn [contains].
  - rewrite orb_false_r, prefix_spec. split.
    + intros [post Hp]. by exists "", post.
    + intros (pre & post & Hp). destruct pre; [by exists post|done].
  - rewrite orb_true_iff, prefix_spec, IH. split.
    + intros [[post Hp]|(pre & post & Hp)].
      * by exists "", post.
      * exists (String c pre), post. by rewrite append_cons, Hp.
    + intros (pre & post & Hp). destruct pre as [|c' pre].
      * left. by exists post.
      * right. exists pre, post. rewrite append_cons in Hp. congruence.
Qed.

Lemma lower_app a b : lower (a +:+ b) = lower a +:+ lower b.
Proof.
  induction a as [|c a IH]; [done|].
  rewrite append_cons. cbn [lower]. by rewrite append_cons, IH.
Qed.

Lemma lower_split t a b :
  lower t = a +:+ b → ∃ ta tb, t = ta +:+ tb ∧ lower ta = a ∧ lower tb = b.
Proof.
  revert t. induction a as [|c a IH]; intros t Ht.
  - by exists "", t.
  - destruct t as [|c' t]; [done|]. rewrite append_cons in Ht.
    cbn [lower] in Ht. injection Ht as Hc Ht.
    destruct (IH t Ht) as (ta & tb & -> & Ha & Hb).
    exists (String c' ta), tb. cbn [lower]. by rewrite Hc, Ha.
Qed.

(** A test on the lowered text finds the occurrences of a word whatever
    their letter case. *)
Lemma contains_lower word text :
  contains word (lower text) = true ↔ mentions word text.
Proof.
  rewrite contains_spec. unfold mentions. split.
  - intros (pre & post & Hl).
    destruct (lower_split _ _ _ Hl) as (tp & rest & -> & _ & Hrest).
    destruct (lower_split _ _ _ Hrest) as (tm & tq & -> & Hm & _).
    by exists tp, tm, tq.
  - intros (pre & mid & post & -> & Hm).
    exists (lower pre), (lower post). by rewrite !lower_app, Hm.
Qed.

Lemma event_importance_high text :
  event_importance (lower text) = "high" ↔
  mentions "critical" text ∨ mentions "important" text.
Proof.
  unfold event_importance. rewrite <- !contains_lower, <- orb_true_iff.
  destruct (_ || _); split; done.
Qed.

Lemma event_importance_medium text :
  event_importance (lower text) = "medium" ↔
  ¬ (mentions "critical" text ∨ mentions "important" text).
Proof.
  rewrite <- event_importance_high. unfold event_importance.
  destruct (_ || _); split; done.
Qed.

(** *** States of the store *)

Lemma slice_to_max {A} (l : list A) : slice_to MAX_CONTEXT_ITEMS l = take 15 l.
Proof. reflexivity. Qed.

Lemma wf_init : wf init.
Proof. unfold wf, init; simpl. lia. Qed.

(** The state in which [update_with_chapter] reaches the pruning call. *)
Lemma record_chapter_state chapter n s :
  wf s →
  let mid := (record_chapter chapter n s).2 in
  wf mid ∧
  points mid = points s ++ created chapter n s ∧
  chapter_summaries mid = <[n := summary_of chapter n]> (chapter_summaries s).
Proof.
  intros Hwf. unfold created.
  destruct (record_chapter_run chapter n s) as (texts & others & r & -> & _).
  cbn [snd]. assert (wf (with_summary n (summary_of chapter n) s)) as Hwf' by done.
  rewrite points_push by done. split_and!; [by apply wf_push| |done].
  change (points (with_summary n (summary_of chapter n) s)) with (points s).
  by rewrite drop_app_length.
Qed.

Lemma update_run chapter n s :
  update_with_chapter chapter n s =
  match (record_chapter chapter n s).1 with
  | Ok _ => _prune_context (record_chapter chapter n s).2
  | Raise e => (Raise e, (record_chapter chapter n s).2)
  end.
Proof.
  unfold update_with_chapter. rewrite bind_run.
  by destruct (record_chapter chapter n s) as [[?|?] ?].
Qed.

(** Every method keeps the store well formed, and [update_with_chapter]
    always leaves the summary of the chapter behind. *)
Lemma update_state chapter n s :
  wf s →
  let s' := (update_with_chapter chapter n s).2 in
  wf s' ∧
  chapter_summaries s' = <[n := summary_of chapter n]> (chapter_summaries s) ∧
  ((update_with_chapter chapter n s).1 = Ok tt ↔ extractable chapter) ∧
  points s' =
    (if is_ok (update_with_chapter chapter n s).1
     then pruned (points (record_chapter chapter n s).2)
     else points (record_chapter chapter n s).2).
Proof.
  intros Hwf. destruct (record_chapter_state chapter n s Hwf) as (Hmid & _ & Hsum).
  rewrite update_run.
  destruct (record_chapter_run chapter n s) as (texts & others & r & Hrun & _ & Hok & _).
  rewrite Hrun in *. cbn [fst snd] in *. destruct r as [[]|e].
  - destruct (prune_run _ Hmid) as (s' & -> & Hwf' & Hsum' & Hpts). cbn [fst snd is_ok].
    split_and!; [done|congruence|done|done].
  - cbn [fst snd is_ok]. split_and!; [done|done| |done].
    rewrite <- Hok. done.
Qed.

(** *** What a bundle shows of the store *)

Lemma sorted_relevant n pts p :
  p ∈ PySort.sort_reverse sort_key (relevant n pts) ↔
  p ∈ pts ∧ Point.chapter p < n.
Proof.
  rewrite sort_reverse_perm. unfold relevant. rewrite list_elem_of_filter.
  tauto.
Qed.

Lemma shows_sound ty n pts :
  shows n pts ty
    (slice_to MAX_CONTEXT_ITEMS
       (contents_of ty (PySort.sort_reverse sort_key (relevant n pts)))).
Proof.
  rewrite slice_to_max. unfold shows, contents_of. split.
  - intros v Hv. apply elem_of_take in Hv as (i & Hi & _).
    apply list_elem_of_lookup_2, list_elem_of_fmap in Hi as (p & -> & Hp).
    apply list_elem_of_filter in Hp as [Hty Hp].
    apply sorted_relevant in Hp as [Hp Hn]. by exists p.
  - intros Hlen p Hp Hn Hty. rewrite take_ge.
    + apply list_elem_of_fmap_2, list_elem_of_filter. split; [done|].
      by apply sorted_relevant.
    + rewrite length_fmap, sort_reverse_perm. unfold relevant.
      rewrite list_filter_filter. unfold MAX_CONTEXT_ITEMS in Hlen. lia.
Qed.

Lemma key_ge_points p q :
  PySort.key_ge (sort_key p) (sort_key q) ↔
  Point.weight q < Point.weight p ∨
  (Point.weight q = Point.weight p ∧ Point.chapter q ≤ Point.chapter p).
Proof. done. Qed.

(** *** Retrieval *)

(** C4. For every state of the store, the bundle for chapter 1 has four
    empty lists, and the call leaves the state as it was. *)
Theorem first_chapter_isolation s :
  get_context_for_chapter 1 s = (Ok (Context.Build [] [] [] []), s).
Proof. reflexivity. Qed.

(** C1. For a chapter number above 1 the three point lists of the bundle
    are built from a list [sorted] that holds exactly the stored points
    from earlier chapters, in descending order of weight and, for equal
    weights, of chapter; each list keeps the points of its type in that
    order and is cut to its first [MAX_CONTEXT_ITEMS] entries. *)
Theorem retrieval_ranks_and_bounds s n :
  1 < n →
  ∃ ctx s' sorted,
    get_context_for_chapter n s = (Ok ctx, s') ∧
    sorted ≡ₚ filter (λ p, Point.chapter p < n) (points s) ∧
    (∀ i j p q, (i < j)%nat → sorted !! i = Some p → sorted !! j = Some q →
       Point.weight q < Point.weight p ∨
       (Point.weight q = Point.weight p ∧ Point.chapter q ≤ Point.chapter p)) ∧
    Context.key_events ctx =
      take (Z.to_nat MAX_CONTEXT_ITEMS)
        (Point.content <$> filter (λ p, Point.type p = "event") sorted) ∧
    Context.character_developments ctx =
      take (Z.to_nat MAX_CONTEXT_ITEMS)
        (Point.content <$>
           filter (λ p, Point.type p = "character_development") sorted) ∧
    Context.open_hooks ctx =
      take (Z.to_nat MAX_CONTEXT_ITEMS)
        (Point.content <$> filter (λ p, Point.type p = "hook") sorted) ∧
    Z.of_nat (length (Context.key_events ctx)) ≤ MAX_CONTEXT_ITEMS ∧
    Z.of_nat (length (Context.character_developments ctx)) ≤ MAX_CONTEXT_ITEMS ∧
    Z.of_nat (length (Context.open_hooks ctx)) ≤ MAX_CONTEXT_ITEMS.
Proof.
  intros Hn. rewrite get_context_run by lia. cbv zeta.
  eexists _, _, (PySort.sort_reverse sort_key (relevant n (points s))).
  split; [reflexivity|]. cbn [Context.key_events Context.character_developments
                               Context.open_hooks].
  rewrite !slice_to_max. change (Z.to_nat MAX_CONTEXT_ITEMS) with 15%nat.
  split_and!; try done.
  - apply sort_reverse_perm.
  - intros i j p q Hij Hp Hq. apply key_ge_points.
    eapply (descending_lookup sort_key); [apply sort_reverse_descending|done..].
  - rewrite length_take. unfold MAX_CONTEXT_ITEMS. lia.
  - rewrite length_take. unfold MAX_CONTEXT_ITEMS. lia.
  - rewrite length_take. unfold MAX_CONTEXT_ITEMS. lia.
Qed.

(** C10. A chapter number that is zero or negative gives the empty bundle
    too, as long as no stored point has a negative chapter. *)
Theorem nonpositive_chapter_gives_empty_bundle s n :
  n ≤ 0 →
  Forall (λ p, 0 ≤ Point.chapter p) (points s) →
  (get_context_for_chapter n s).1 = Ok (Context.Build [] [] [] []).
Proof.
  intros Hn Hpts. rewrite get_context_run by lia. cbv zeta. cbn [fst].
  assert (relevant n (points s) = []) as ->.
  { unfold relevant. induction Hpts as [|p l Hp _ IH]; [done|].
    rewrite filter_cons_False by lia. done. }
  unfold range. rewrite seqZ_nil by lia. done.
Qed.

(** C9. Retrieval reads the store and changes nothing in it: the store
    refers to the same list object, every list object that existed is
    unchanged, and so are the summaries; the bundle depends on the points
    and the summaries alone, so a second call returns the same bundle. *)
Theorem retrieval_is_read_only s n :
  wf s →
  ∃ ctx s',
    get_context_for_chapter n s = (Ok ctx, s') ∧
    wf s' ∧
    context_points s' = context_points s ∧
    (∀ r l, objects s !! r = Some l → objects s' !! r = Some l) ∧
    points s' = points s ∧
    chapter_summaries s' = chapter_summaries s ∧
    (get_context_for_chapter n s').1 = Ok ctx ∧
    ∀ t, points t = points s → chapter_summaries t = chapter_summaries s →
         (get_context_for_chapter n t).1 = Ok ctx.
Proof.
  intros Hwf. destruct (decide (n = 1)) as [->|Hn].
  - by exists (Context.Build [] [] [] []), s.
  - rewrite get_context_run by done. cbv zeta. eexists _, _.
    split; [reflexivity|].
    assert (points (State (objects s ++
              [PySort.sort_reverse sort_key (relevant n (points s))])
              (context_points s) (chapter_summaries s)) = points s) as Hpts.
    { unfold points, deref. cbn [objects context_points].
      by rewrite lookup_app_l by done. }
    split_and!; try done.
    + unfold wf in *. cbn [objects context_points]. rewrite length_app. lia.
    + intros r l Hr. cbn [objects]. rewrite lookup_app_l; [done|].
      by eapply lookup_lt_Some.
    + rewrite get_context_run by done. cbv zeta. cbn [fst chapter_summaries].
      by rewrite Hpts.
    + intros t Ht Hsum. rewrite get_context_run by done. cbv zeta. cbn [fst].
      by rewrite Ht, Hsum.
Qed.

(** *** Updates *)

Lemma pruned_spec l :
  (MAX_CONTEXT_ITEMS * 3 < Z.of_nat (length l) →
   pruned l = take (Z.to_nat (MAX_CONTEXT_ITEMS * 2))
                (PySort.sort_reverse sort_key l)) ∧
  (Z.of_nat (length l) ≤ MAX_CONTEXT_ITEMS * 3 → pruned l = l).
Proof.
  unfold pruned. split; intros H.
  - destruct (Z.ltb_spec (MAX_CONTEXT_ITEMS * 3) (Z.of_nat (length l))); [done|lia].
  - destruct (Z.ltb_spec (MAX_CONTEXT_ITEMS * 3) (Z.of_nat (length l))); [lia|done].
Qed.

(** C2, as the code has it.  A call of [update_with_chapter] returns
    exactly for the chapters whose fields it can walk through, and when it
    returns it has pruned the store: with more than [3 * MAX_CONTEXT_ITEMS]
    points before the pruning call, the store holds the first
    [2 * MAX_CONTEXT_ITEMS] points of a list that has the same points in
    descending order of weight and chapter; otherwise the points are as
    they were.  So the store then ends with at most [3 * MAX_CONTEXT_ITEMS]
    points, and with at most [2 * MAX_CONTEXT_ITEMS] when pruning took
    place.  A call that raises has not pruned: it leaves the points it had
    appended, however many they are. *)
Theorem update_prunes_the_store s chapter n :
  wf s →
  let before := points (record_chapter chapter n s).2 in
  let after := points (update_with_chapter chapter n s).2 in
  update_with_chapter chapter n = (record_chapter chapter n ;; _prune_context) ∧
  ((update_with_chapter chapter n s).1 = Ok tt ↔ extractable chapter) ∧
  ((update_with_chapter chapter n s).1 = Ok tt →
   (MAX_CONTEXT_ITEMS * 3 < Z.of_nat (length before) →
    ∃ sorted,
      sorted ≡ₚ before ∧
      (∀ i j p q, (i < j)%nat → sorted !! i = Some p → sorted !! j = Some q →
         Point.weight q < Point.weight p ∨
         (Point.weight q = Point.weight p ∧
          Point.chapter q ≤ Point.chapter p)) ∧
      after = take (Z.to_nat (MAX_CONTEXT_ITEMS * 2)) sorted) ∧
   (Z.of_nat (length before) ≤ MAX_CONTEXT_ITEMS * 3 → after = before) ∧
   Z.of_nat (length after) ≤ MAX_CONTEXT_ITEMS * 3 ∧
   (MAX_CONTEXT_ITEMS * 3 < Z.of_nat (length before) →
    Z.of_nat (length after) ≤ MAX_CONTEXT_ITEMS * 2)) ∧
  ((update_with_chapter chapter n s).1 ≠ Ok tt → after = before).
Proof.
  intros Hwf before after.
  destruct (update_state chapter n s Hwf) as (_ & _ & Hok & Hpts).
  split; [done|]. split; [done|]. fold after before in Hpts. split.
  2:{ intros Hraise. rewrite Hpts.
      destruct (update_with_chapter chapter n s).1 as [[]|e]; [by destruct Hraise|done]. }
  intros Hret. rewrite Hret in Hpts. cbn [is_ok] in Hpts.
  destruct (pruned_spec before) as [Hbig Hsmall].
  assert (MAX_CONTEXT_ITEMS * 3 < Z.of_nat (length before) →
          Z.of_nat (length after) ≤ MAX_CONTEXT_ITEMS * 2) as Hcut.
  { intros Hlen. rewrite Hpts, Hbig, length_take by done.
    unfold MAX_CONTEXT_ITEMS. lia. }
  split_and!; [|by intros; rewrite Hpts; auto| |done].
  - intros Hlen. exists (PySort.sort_reverse sort_key before). split_and!.
    + apply sort_reverse_perm.
    + intros i j p q Hij Hp Hq. apply key_ge_points.
      eapply (descending_lookup sort_key); [apply sort_reverse_descending|done..].
    + rewrite Hpts. auto.
  - destruct (Z.lt_ge_cases (MAX_CONTEXT_ITEMS * 3) (Z.of_nat (length before))).
    + specialize (Hcut ltac:(done)). unfold MAX_CONTEXT_ITEMS in *. lia.
    + by rewrite Hpts, Hsmall.
Qed.

(** C2, as the claim has it, fails: a call that meets a key event that is
    not a string raises before the pruning call, and here it leaves 46
    points, more than [3 * MAX_CONTEXT_ITEMS], in a store that was empty. *)
Lemma pruning_counterexample :
  (update_with_chapter ill_typed_chapter 1 init).1 = Raise AttributeError ∧
  Z.of_nat (length (points (update_with_chapter ill_typed_chapter 1 init).2)) = 46 ∧
  ¬ (Z.of_nat (length (points (update_with_chapter ill_typed_chapter 1 init).2))
       ≤ MAX_CONTEXT_ITEMS * 3).
Proof.
  assert (Z.of_nat (length (points (update_with_chapter ill_typed_chapter 1 init).2))
          = 46) as Hlen by (vm_compute; reflexivity).
  split; [vm_compute; reflexivity|]. split; [exact Hlen|].
  rewrite Hlen. unfold MAX_CONTEXT_ITEMS. lia.
Qed.

(** C5. The points a call makes are those it has appended when it reaches
    the pruning call, and they are what it leaves in the store when the
    store then holds at most [3 * MAX_CONTEXT_ITEMS] points.  Those of type
    [event] carry a string, with importance [high] when the string mentions
    "critical" or "important" in any letter case and [medium] when it does
    not.  When [key_events] is a single string, the call makes one event
    point that holds the whole string, and none when the string is empty. *)
Theorem string_key_events_make_one_point s chapter n :
  wf s →
  let made := created chapter n s in
  points (record_chapter chapter n s).2 = points s ++ made ∧
  (Z.of_nat (length (points s ++ made)) ≤ MAX_CONTEXT_ITEMS * 3 →
   points (update_with_chapter chapter n s).2 = points s ++ made) ∧
  (∀ p, p ∈ made → Point.type p = "event" →
     ∃ text,
       Point.content p = VStr text ∧ Point.chapter p = n ∧
       ((mentions "critical" text ∨ mentions "important" text) ∧
          Point.importance p = "high" ∧ Point.weight p = 3
        ∨ ¬ (mentions "critical" text ∨ mentions "important" text) ∧
          Point.importance p = "medium" ∧ Point.weight p = 2)) ∧
  ∀ text, dict_lookup chapter "key_events" = Some (VStr text) →
    ∃ importance weight,
      filter (λ p, Point.type p = "event") made =
        (if decide (text = "") then []
         else [Point.Build (VStr text) n importance "event" weight]).
Proof.
  intros Hwf made.
  destruct (record_chapter_state chapter n s Hwf) as (_ & Hpts & _).
  split; [done|]. fold made in Hpts. split.
  { intros Hlen. destruct (update_state chapter n s Hwf) as (_ & _ & _ & ->).
    rewrite Hpts. destruct (is_ok _); [|done]. by apply pruned_spec. }
  destruct (record_chapter_run chapter n s) as (texts & others & r & Hrun & Hlater & _ & Hall).
  assert (made = (event_point n <$> texts) ++ others) as Hmade.
  { apply (app_inv_head (points s)). rewrite <- Hpts, Hrun. cbn [snd].
    by rewrite points_push. }
  assert (Forall (λ p, Point.type p ≠ "event") others) as Hothers.
  { eapply Forall_impl; [exact Hlater|]. intros p (_ & _ & _ & [-> | ->]); done. }
  split.
  - intros p Hp Hty. rewrite Hmade in Hp. apply elem_of_app in Hp as [Hp|Hp].
    2:{ rewrite Forall_forall in Hothers. by destruct (Hothers p Hp). }
    apply list_elem_of_fmap in Hp as (text & -> & _). exists text.
    split; [done|]. split; [done|]. cbn.
    assert (event_importance (lower text) = "high" ∨
            event_importance (lower text) = "medium") as [Hi|Hi]
      by (unfold event_importance; destruct (_ || _); auto).
    + left. split; [by apply event_importance_high|]. by rewrite Hi.
    + right. split; [by apply event_importance_medium|]. by rewrite Hi.
  - intros text Hget.
    exists (event_importance (lower text)),
           (weight_map (lower (event_importance (lower text)))).
    assert (texts = if decide (text = "") then [] else [text]) as ->.
    { apply Hall. unfold get. rewrite Hget. simpl.
      destruct (String.eqb_spec text "") as [->|Hne]; [done|].
      by rewrite decide_False. }
    rewrite Hmade, filter_app.
    assert (filter (λ p, Point.type p = "event") others = []) as ->.
    { clear -Hothers. induction Hothers as [|p l Hp _ IH]; [done|].
      by rewrite filter_cons_False. }
    rewrite app_nil_r. by destruct (decide (text = "")).
Qed.

Lemma created_chapter chapter n s :
  wf s → Forall (λ p, Point.chapter p = n) (created chapter n s).
Proof.
  intros Hwf.
  destruct (record_chapter_state chapter n s Hwf) as (_ & Hpts & _).
  destruct (record_chapter_run chapter n s) as (texts & others & r & Hrun & Hlater & _).
  assert (created chapter n s = (event_point n <$> texts) ++ others) as ->.
  { apply (app_inv_head (points s)). rewrite <- Hpts, Hrun. cbn [snd].
    by rewrite points_push. }
  apply Forall_app. split.
  - apply Forall_fmap, Forall_forall. done.
  - eapply Forall_impl; [exact Hlater|]. by intros p [? _].
Qed.

(** C3, as the code has it.  After [update_with_chapter] for chapter [i],
    whether it returned or raised, the bundle for chapter [i + 1] has the
    summary of the chapter among its previous chapters and holds summaries
    of chapters below [i + 1] only.  Each point list shows stored points of
    its type from chapters below [i + 1] only, and all of them when they
    are at most [MAX_CONTEXT_ITEMS].  The points made from the chapter all
    belong to chapter [i], and all of them are stored when the store then
    holds at most [3 * MAX_CONTEXT_ITEMS] points. *)
Theorem visibility_after_update s chapter i :
  1 ≤ i →
  wf s →
  let s1 := (update_with_chapter chapter i s).2 in
  ∃ ctx s2,
    get_context_for_chapter (i + 1) s1 = (Ok ctx, s2) ∧
    Summary.Build
      (get chapter "title" (VStr ("Chapter " +:+ pretty i)))
      (get chapter "summary" (VStr "No summary available."))
      (get chapter "key_events" (VList []))
      ∈ Context.previous_chapters ctx ∧
    (∀ v, v ∈ Context.previous_chapters ctx →
       ∃ j, 1 ≤ j < i + 1 ∧ chapter_summaries s1 !! j = Some v) ∧
    shows (i + 1) (points s1) "event" (Context.key_events ctx) ∧
    shows (i + 1) (points s1) "character_development"
      (Context.character_developments ctx) ∧
    shows (i + 1) (points s1) "hook" (Context.open_hooks ctx) ∧
    Forall (λ p, Point.chapter p = i) (created chapter i s) ∧
    (Z.of_nat (length (points s ++ created chapter i s)) ≤ MAX_CONTEXT_ITEMS * 3 →
     points s1 = points s ++ created chapter i s).
Proof.
  intros Hi Hwf s1.
  destruct (update_state chapter i s Hwf) as (Hwf1 & Hsum & _ & Hpts).
  fold s1 in Hwf1, Hsum, Hpts.
  rewrite get_context_run by lia. cbv zeta. eexists _, _.
  split; [reflexivity|].
  cbn [Context.previous_chapters Context.key_events
       Context.character_developments Context.open_hooks].
  split_and!; try apply shows_sound.
  - apply list_elem_of_omap. exists i. split.
    + unfold range. apply elem_of_seqZ. lia.
    + rewrite Hsum. apply lookup_insert_eq.
  - intros v Hv. apply list_elem_of_omap in Hv as (j & Hj & Hv).
    exists j. split; [|done]. unfold range in Hj. apply elem_of_seqZ in Hj. lia.
  - by apply created_chapter.
  - intros Hlen.
    destruct (record_chapter_state chapter i s Hwf) as (_ & Hmid & _).
    rewrite Hpts, Hmid. destruct (is_ok _); [|done].
    by apply pruned_spec.
Qed.

(** C3, as the claim has it, fails: of sixteen key events only fifteen
    reach the bundle for the next chapter. *)
Lemma visibility_counterexample :
  let texts := ["e1"; "e2"; "e3"; "e4"; "e5"; "e6"; "e7"; "e8"; "e9"; "e10";
                "e11"; "e12"; "e13"; "e14"; "e15"; "e16"] in
  let chapter := [("key_events", VList (VStr <$> texts))] in
  let s1 := (update_with_chapter chapter 1 init).2 in
  let p := Point.Build (VStr "e16") 1 "medium" "event" 2 in
  (update_with_chapter chapter 1 init).1 = Ok tt ∧
  p ∈ created chapter 1 init ∧
  p ∈ points s1 ∧
  Point.chapter p < 1 + 1 ∧
  ∃ ctx, (get_context_for_chapter (1 + 1) s1).1 = Ok ctx ∧
         Point.content p ∉ Context.key_events ctx.
Proof.
  cbv zeta. split_and!.
  - vm_compute. reflexivity.
  - vm_compute. repeat (first [apply list_elem_of_here | apply list_elem_of_further]).
  - vm_compute. repeat (first [apply list_elem_of_here | apply list_elem_of_further]).
  - done.
  - eexists. split; [vm_compute; reflexivity|].
    cbn [Context.key_events Point.content].
    intros H. repeat (apply elem_of_cons in H as [H|H]; [discriminate H|]).
    by apply elem_of_nil in H.
Qed.

(** *** The properties at sample inputs *)

Lemma wf_update chapter n s : wf s → wf (update_with_chapter chapter n s).2.
Proof. intros Hwf. by destruct (update_state chapter n s Hwf). Qed.

Lemma retrieval_ranks_and_bounds_witness :
  1 < 2 ∧
  ∃ ctx s',
    get_context_for_chapter 2 sample_store = (Ok ctx, s') ∧
    Z.of_nat (length (Context.key_events ctx)) ≤ MAX_CONTEXT_ITEMS.
Proof.
  split; [lia|].
  destruct (retrieval_ranks_and_bounds sample_store 2 ltac:(lia))
    as (ctx & s' & sorted & Hrun & _ & _ & _ & _ & _ & Hlen & _).
  by exists ctx, s'.
Defined.

Lemma nonpositive_chapter_gives_empty_bundle_witness :
  0 ≤ 0 ∧
  Forall (λ p, 0 ≤ Point.chapter p) (points sample_store) ∧
  (get_context_for_chapter 0 sample_store).1 = Ok (Context.Build [] [] [] []).
Proof.
  assert (Forall (λ p, 0 ≤ Point.chapter p) (points sample_store)) as H.
  { apply (bool_decide_unpack _). vm_compute. exact I. }
  split; [lia|]. split; [exact H|].
  apply (nonpositive_chapter_gives_empty_bundle sample_store 0); [lia|exact H].
Defined.

Lemma retrieval_is_read_only_witness :
  wf sample_store ∧
  ∃ ctx s',
    get_context_for_chapter 2 sample_store = (Ok ctx, s') ∧
    points s' = points sample_store ∧
    chapter_summaries s' = chapter_summaries sample_store.
Proof.
  assert (wf sample_store) as H by (apply wf_update, wf_init).
  split; [exact H|].
  destruct (retrieval_is_read_only sample_store 2 H)
    as (ctx & s' & Hrun & _ & _ & _ & Hpts & Hsum & _).
  by exists ctx, s'.
Defined.

Lemma update_prunes_the_store_witness :
  wf full_store ∧
  (update_with_chapter (busy_chapter 3) 2 full_store).1 = Ok tt ∧
  Z.of_nat (length (points (record_chapter (busy_chapter 3) 2 full_store).2)) = 47 ∧
  Z.of_nat (length (points (update_with_chapter (busy_chapter 3) 2 full_store).2))
    ≤ MAX_CONTEXT_ITEMS * 2.
Proof.
  assert (wf full_store) as H by (apply wf_update, wf_init).
  assert ((update_with_chapter (busy_chapter 3) 2 full_store).1 = Ok tt) as Hok
    by (vm_compute; reflexivity).
  assert (Z.of_nat (length (points (record_chapter (busy_chapter 3) 2 full_store).2)) = 47)
    as Hlen by (vm_compute; reflexivity).
  split; [exact H|]. split; [exact Hok|]. split; [exact Hlen|].
  destruct (update_prunes_the_store full_store (busy_chapter 3) 2 H)
    as (_ & _ & Hprune & _).
  destruct (Hprune Hok) as (_ & _ & _ & Hcut). apply Hcut.
  rewrite Hlen. unfold MAX_CONTEXT_ITEMS. lia.
Defined.

Lemma string_key_events_make_one_point_witness :
  wf init ∧
  ∃ importance weight,
    filter (λ p, Point.type p = "event") (created string_chapter 1 init) =
    [Point.Build (VStr "Hero found the letter") 1 importance "event" weight].
Proof.
  split; [exact wf_init|].
  destruct (string_key_events_make_one_point init string_chapter 1 wf_init)
    as (_ & _ & _ & Hone).
  destruct (Hone "Hero found the letter" eq_refl) as (importance & weight & Hmade).
  by exists importance, weight.
Defined.

Lemma visibility_after_update_witness :
  1 ≤ 1 ∧ wf init ∧
  ∃ ctx s2,
    get_context_for_chapter (1 + 1) sample_store = (Ok ctx, s2) ∧
    Summary.Build (VStr "The Letter") (VStr "A letter arrives.")
      (VList [VStr "A letter arrives"; VStr "A CRITICAL clue is lost"])
      ∈ Context.previous_chapters ctx.
Proof.
  split; [lia|]. split; [exact wf_init|].
  destruct (visibility_after_update init sample_chapter 1 ltac:(lia) wf_init)
    as (ctx & s2 & Hrun & Hsum & _).
  by exists ctx, s2.
Defined.

End StoreFacts.

(** ** The chapter-outline stage *)

Module FoundationFacts.
Import StoryFoundation Outlines.







Lemma with_defaults_placeholder genres_str narrative_pacing i :
  with_defaults genres_str narrative_pacing
    (placeholder genres_str narrative_pacing i) =
  placeholder genres_str narrative_pacing i.
Proof. reflexivity. Qed.



(** C8 fails on the code: a list of two chapter titles for two chapters
    comes back with four entries, because the handler appends its two
    placeholders to the list the [try] body had reached when the loop over
    the outlines raised. *)
Theorem outlines_miscounted narrative_pacing genres :
  ∃ outlines,
    _generate_chapter_outlines
      (Ok [("chapters", VList [VStr "Chapter one"; VStr "Chapter two"])])
      narrative_pacing 2 genres
    = Ok (VList outlines) ∧
    outlines = [VStr "Chapter one"; VStr "Chapter two";
                placeholder (join ", " genres) narrative_pacing 0;
                placeholder (join ", " genres) narrative_pacing 1] ∧
    Z.of_nat (length outlines) = 4.
Proof. eexists. split_and!; reflexivity. Qed.
End FoundationFacts.

(** ** The chapter generator *)

Module GeneratorFacts.
Import ChapterGenerator.

(** A generator whose emphasis can be computed has chapters to count and a
    position for every chapter, so the default genre elements of the
    fallback chapter can be computed too. *)
Lemma default_genre_elements_ok s chapter_num :
  is_ok (_determine_genre_emphasis s chapter_num) = true →
  ∃ total position,
    total_chapters s = Ok total ∧
    chapter_position chapter_num total = Ok position ∧
    _get_default_genre_elements s chapter_num =
      Ok (strings (default_genre_element (default_phase position) <$> genres s)).
Proof.
  unfold _determine_genre_emphasis, _get_default_genre_elements.
  intros H. apply result_bind_ok in H as (total & Ht & H).
  apply result_bind_ok in H as (position & Hp & _).
  exists total, position. by rewrite Ht, result_bind_run, Hp.
Qed.

(** C6. When the call reaches the parser and parsing fails, whatever the
    exception, [generate_chapter] returns the fallback chapter: every field
    of the schema is present and [key_events] is the empty list. *)
Theorem parse_failure_gives_fallback s chapter_num e :
  is_ok (_get_chapter_outline s chapter_num) = true →
  is_ok (_determine_genre_emphasis s chapter_num) = true →
  ∃ chapter s',
    generate_chapter (Raise e) chapter_num s = (Ok chapter, s') ∧
    Forall (λ field, has_key chapter field = true) chapter_schema ∧
    dict_lookup chapter "key_events" = Some (VList []) ∧
    dict_lookup chapter "content" =
      Some (VStr "Error generating chapter content.") ∧
    dict_lookup chapter "next_chapter_hooks" = Some (VList []) ∧
    story_outline s' = story_outline s ∧ genres s' = genres s ∧
    genre_arcs s' = genre_arcs s.
Proof.
  intros Hout Hemph.
  destruct (_get_chapter_outline s chapter_num) as [chapter_outline|] eqn:Ho; [|done].
  destruct (default_genre_elements_ok s chapter_num Hemph)
    as (total & position & Ht & Hp & Hdef).
  destruct (_determine_genre_emphasis s chapter_num) as [guidance|] eqn:Hg; [|done].
  unfold generate_chapter.
  rewrite bind_run. change (get_state s) with (Ok s, s). cbv beta iota.
  rewrite bind_run, lift_run, Ho. cbv beta iota. rewrite bind_run.
  unfold on_context_manager.
  destruct (ContextManager.get_context_for_chapter chapter_num (context_manager s))
    as [r cm] eqn:Hcm.
  assert (∃ ctx, r = Ok ctx) as [ctx ->].
  { destruct (decide (chapter_num = 1)) as [->|Hn].
    - injection Hcm as <- _. by eexists.
    - rewrite StoreFacts.get_context_run in Hcm by done. injection Hcm as <- _.
      by eexists. }
  cbv beta iota. rewrite bind_run, lift_run, Hg. cbv beta iota.
  unfold try_except, parse_chapter. rewrite bind_run, lift_run. cbv beta iota.
  unfold fallback_chapter. rewrite bind_run.
  set (s' := Self _ _ cm _). change (get_state s') with (Ok s', s').
  cbv beta iota. rewrite bind_run, lift_run.
  assert (_get_default_genre_elements s' chapter_num =
          _get_default_genre_elements s chapter_num) as -> by done.
  rewrite Hdef. cbv beta iota.
  eexists _, s'. split; [reflexivity|].
  split_and!; try done.
  repeat constructor.
Qed.

Lemma parse_failure_gives_fallback_witness :
  is_ok (_get_chapter_outline Scenario.mystery_generator 3) = true ∧
  is_ok (_determine_genre_emphasis Scenario.mystery_generator 3) = true ∧
  ∃ chapter s',
    generate_chapter (Raise OutputParserException) 3 Scenario.mystery_generator
      = (Ok chapter, s') ∧
    Forall (λ field, has_key chapter field = true) chapter_schema ∧
    dict_lookup chapter "key_events" = Some (VList []).
Proof.
  assert (is_ok (_get_chapter_outline Scenario.mystery_generator 3) = true)
    as Hout by (vm_compute; reflexivity).
  assert (is_ok (_determine_genre_emphasis Scenario.mystery_generator 3) = true)
    as Hemph by (vm_compute; reflexivity).
  split; [exact Hout|]. split; [exact Hemph|].
  destruct (parse_failure_gives_fallback Scenario.mystery_generator 3
              OutputParserException Hout Hemph)
    as (chapter & s' & Hrun & Hall & Hkey & _).
  by exists chapter, s'.
Defined.



End GeneratorFacts.

(** ** More of the context manager *)

Module StoreMore.
Import ContextManager Store StoreFacts PySortFacts.

#[local] Arguments add_context_point : simpl never.
#[local] Arguments push : simpl never.
#[local] Arguments _prune_context : simpl never.

Lemma events_loop_extracted events n s :
  for_each events (event_body n) s =
  ((event_texts events).2, push (event_point n <$> (event_texts events).1) s).
Proof.
  revert s. induction events as [|e events IH]; intros s.
  - cbn. by rewrite push_nil.
  - cbn [for_each]. rewrite bind_run. unfold event_body at 1.
    rewrite bind_run, lift_run.
    destruct e as [| | |t| |]; cbn [str_lower event_texts fst snd];
      try by rewrite push_nil.
    rewrite add_context_point_run, IH, push_push.
    by destruct (event_texts events).
Qed.

(** [record_chapter] stores the summary and appends the extracted points,
    whatever the state. *)
Lemma record_chapter_extracted chapter n s :
  record_chapter chapter n s =
  ((extracted chapter n).2,
   push (extracted chapter n).1 (with_summary n (summary_of chapter n) s)).
Proof.
  unfold record_chapter, extracted. rewrite bind_run.
  change (set_chapter_summary n _ s) with
    (Ok tt, with_summary n (summary_of chapter n) s).
  cbv beta iota zeta. set (s0 := with_summary _ _ s).
  rewrite bind_run, lift_run.
  destruct (iter (listify (get chapter "key_events" (VList [])))) as [events|e].
  2:{ cbn [fst snd]. by rewrite push_nil. }
  rewrite bind_run.
  change (for_each events _ s0) with (for_each events (event_body n) s0).
  rewrite events_loop_extracted.
  destruct (event_texts events) as [texts [[]|e]]; cbn [fst snd]; [|done].
  rewrite bind_run, character_stage_run, push_push.
  rewrite bind_run, lift_run.
  destruct (iter (listify (get chapter "next_chapter_hooks" (VList [])))) as [hooks|e];
    cbn [fst snd]; [|done].
  by rewrite for_each_add, push_push.
Qed.

Lemma created_extracted chapter n s :
  wf s → created chapter n s = (extracted chapter n).1.
Proof.
  intros Hwf. unfold created. rewrite record_chapter_extracted. cbn [snd].
  rewrite points_push by done.
  change (points (with_summary n (summary_of chapter n) s)) with (points s).
  by rewrite drop_app_length.
Qed.

Lemma event_texts_strings texts : event_texts (VStr <$> texts) = (texts, Ok tt).
Proof. induction texts as [|t texts IH]; [done|]. cbn. by rewrite IH. Qed.

Lemma event_texts_stop good bad rest :
  (∀ t, bad ≠ VStr t) →
  event_texts ((VStr <$> good) ++ bad :: rest) = (good, Raise AttributeError).
Proof.
  intros Hbad. induction good as [|t good IH]; cbn.
  - destruct bad; try done. by destruct (Hbad s).
  - cbn in IH. by rewrite IH.
Qed.

(** X1. [add_context_point] returns and puts one point at the end of the
    store, with the content, chapter, importance and type it was given and
    nothing else changed.  The weight follows the importance whatever its
    letter case: 1 for low, 3 for high and for critical, and 2 for medium
    and for every other word. *)
Theorem add_context_point_appends s content chapter importance ty :
  wf s →
  ∃ s' weight,
    add_context_point content chapter importance ty s = (Ok tt, s') ∧
    wf s' ∧
    points s' = points s ++ [Point.Build content chapter importance ty weight] ∧
    chapter_summaries s' = chapter_summaries s ∧
    (weight = 1 ↔ lower importance = "low") ∧
    (weight = 3 ↔ lower importance = "high" ∨ lower importance = "critical") ∧
    (weight = 2 ↔ lower importance ≠ "low" ∧ lower importance ≠ "high" ∧
                  lower importance ≠ "critical").
Proof.
  intros Hwf. rewrite add_context_point_run.
  eexists _, (weight_map (lower importance)). split; [reflexivity|].
  split; [by apply wf_push|]. split; [by rewrite points_push|]. split; [done|].
  unfold weight_map, CRITICAL_CONTEXT_WEIGHT.
  generalize (lower importance). intros word.
  destruct (String.eqb_spec word "low");
    destruct (String.eqb_spec word "medium");
    destruct (String.eqb_spec word "high");
    destruct (String.eqb_spec word "critical"); subst;
    split_and!; split; intros; intuition (try discriminate; try lia; try congruence).
Qed.

Lemma add_context_point_appends_witness :
  wf init ∧
  ∃ s', add_context_point (VStr "A storm") 1 "CRITICAL" "event" init = (Ok tt, s') ∧
        points s' = [Point.Build (VStr "A storm") 1 "CRITICAL" "event" 3].
Proof.
  split; [exact wf_init|].
  destruct (add_context_point_appends init (VStr "A storm") 1 "CRITICAL" "event" wf_init)
    as (s' & weight & Hrun & _ & Hpts & _ & _ & Hw & _).
  exists s'. split; [exact Hrun|].
  rewrite Hpts. assert (weight = 3) as -> by (apply Hw; by right). done.
Defined.

(** *** Pruning *)

Lemma pruned_small l :
  Z.of_nat (length l) ≤ MAX_CONTEXT_ITEMS * 3 → pruned l = l.
Proof. apply pruned_spec. Qed.

Lemma length_pruned l :
  Z.of_nat (length (pruned l)) ≤ MAX_CONTEXT_ITEMS * 3.
Proof.
  destruct (Z.lt_ge_cases (MAX_CONTEXT_ITEMS * 3) (Z.of_nat (length l))) as [H|H].
  - destruct (pruned_spec l) as [Hbig _]. rewrite Hbig, length_take by done.
    unfold MAX_CONTEXT_ITEMS. lia.
  - by rewrite pruned_small.
Qed.

(** X2. Pruning a store of at most [3 * MAX_CONTEXT_ITEMS] points changes
    nothing at all, and pruning twice leaves the points that pruning once
    leaves. *)
Theorem pruning_is_idempotent s :
  wf s →
  (Z.of_nat (length (points s)) ≤ MAX_CONTEXT_ITEMS * 3 →
   _prune_context s = (Ok tt, s)) ∧
  ∃ s1 s2,
    _prune_context s = (Ok tt, s1) ∧ _prune_context s1 = (Ok tt, s2) ∧
    points s2 = points s1 ∧
    chapter_summaries s2 = chapter_summaries s.
Proof.
  intros Hwf. split.
  - intros Hlen. unfold _prune_context. rewrite bind_run.
    change (get_context_points s) with (Ok (context_points s), s).
    cbv beta iota. rewrite bind_run.
    change (read (context_points s) s) with (Ok (points s), s). cbv beta iota.
    destruct (Z.ltb_spec (MAX_CONTEXT_ITEMS * 3) (Z.of_nat (length (points s))));
      [lia|done].
  - destruct (prune_run s Hwf) as (s1 & H1 & Hwf1 & Hsum1 & Hpts1).
    destruct (prune_run s1 Hwf1) as (s2 & H2 & _ & Hsum2 & Hpts2).
    exists s1, s2. split_and!; [done|done| |congruence].
    rewrite Hpts2, pruned_small; [done|]. rewrite Hpts1. apply length_pruned.
Qed.

Lemma pruning_is_idempotent_witness :
  wf full_store ∧
  ∃ s1 s2,
    _prune_context full_store = (Ok tt, s1) ∧ _prune_context s1 = (Ok tt, s2) ∧
    points s2 = points s1.
Proof.
  assert (wf full_store) as H by (apply wf_update, wf_init).
  split; [exact H|].
  destruct (pruning_is_idempotent full_store H) as (_ & s1 & s2 & H1 & H2 & Hp & _).
  exists s1, s2. split; [exact H1|]. split; [exact H2|exact Hp].
Defined.

Lemma sort_key_eq p w c :
  sort_key p = (w, c) ↔ Point.weight p = w ∧ Point.chapter p = c.
Proof. unfold sort_key. split; [by intros [= ??]|by intros [-> ->]]. Qed.

(** X3. When pruning takes place, it keeps [2 * MAX_CONTEXT_ITEMS] of the
    points and drops the rest, and no point it drops ranks above one it
    keeps: a dropped point has a smaller weight than a kept one, or the
    same weight and a chapter that is not later. *)
Theorem pruning_keeps_the_best s :
  wf s →
  MAX_CONTEXT_ITEMS * 3 < Z.of_nat (length (points s)) →
  let kept := points (_prune_context s).2 in
  ∃ dropped,
    kept ++ dropped ≡ₚ points s ∧
    Z.of_nat (length kept) = MAX_CONTEXT_ITEMS * 2 ∧
    ∀ p q, p ∈ kept → q ∈ dropped →
      Point.weight q < Point.weight p ∨
      (Point.weight q = Point.weight p ∧ Point.chapter q ≤ Point.chapter p).
Proof.
  intros Hwf Hlen kept.
  destruct (prune_run s Hwf) as (s1 & H1 & _ & _ & Hpts).
  subst kept. rewrite H1. cbn [snd]. rewrite Hpts.
  destruct (pruned_spec (points s)) as [Hbig _]. rewrite Hbig by done.
  set (sorted := PySort.sort_reverse sort_key (points s)).
  set (k := Z.to_nat (MAX_CONTEXT_ITEMS * 2)).
  exists (drop k sorted). split_and!.
  - rewrite take_drop. apply sort_reverse_perm.
  - rewrite length_take. subst sorted. rewrite sort_reverse_length.
    subst k. unfold MAX_CONTEXT_ITEMS in *. lia.
  - intros p q Hp Hq. apply key_ge_points.
    apply elem_of_take in Hp as (i & Hi & Hik).
    apply list_elem_of_lookup in Hq as (j & Hj). rewrite lookup_drop in Hj.
    eapply (descending_lookup sort_key sorted i (k + j));
      [apply sort_reverse_descending|lia|done|done].
Qed.

Lemma pruning_keeps_the_best_witness :
  ∃ s, wf s ∧ Z.of_nat (length (points s)) = 47 ∧
       Z.of_nat (length (points (_prune_context s).2)) = MAX_CONTEXT_ITEMS * 2.
Proof.
  exists (record_chapter (busy_chapter 3) 2 full_store).2.
  assert (wf (record_chapter (busy_chapter 3) 2 full_store).2) as Hwf.
  { apply record_chapter_state, wf_update, wf_init. }
  assert (Z.of_nat (length (points (record_chapter (busy_chapter 3) 2 full_store).2)) = 47)
    as Hlen by (vm_compute; reflexivity).
  split; [exact Hwf|]. split; [exact Hlen|].
  destruct (pruning_keeps_the_best _ Hwf) as (dropped & _ & Hkept & _); [|exact Hkept].
  rewrite Hlen. unfold MAX_CONTEXT_ITEMS. lia.
Defined.

Lemma filter_take_prefix {A} (P : A → Prop) `{∀ x, Decision (P x)} k (l : list A) :
  filter P (take k l) `prefix_of` filter P l.
Proof.
  exists (filter P (drop k l)). by rewrite <- filter_app, take_drop.
Qed.

(** X4. Among the points of one weight and one chapter, pruning keeps the
    ones that were stored first, in the order in which they were stored. *)
Theorem pruning_keeps_the_earliest_of_equals s w c :
  wf s →
  filter (λ p, Point.weight p = w ∧ Point.chapter p = c)
    (points (_prune_context s).2)
  `prefix_of`
  filter (λ p, Point.weight p = w ∧ Point.chapter p = c) (points s).
Proof.
  intros Hwf. destruct (prune_run s Hwf) as (s1 & H1 & _ & _ & Hpts).
  rewrite H1. cbn [snd]. rewrite Hpts.
  unfold pruned. destruct (_ <? _); [|done].
  change (slice_to (MAX_CONTEXT_ITEMS * 2) ?l) with (take 30 l).
  assert (∀ l : list Point.t,
            filter (λ p, Point.weight p = w ∧ Point.chapter p = c) l =
            filter (λ p, sort_key p = (w, c)) l) as Hkey.
  { intros l. apply list_filter_iff. intros p. symmetry. apply sort_key_eq. }
  rewrite !Hkey. etrans; [apply filter_take_prefix|].
  by rewrite (sort_reverse_stable sort_key (w, c)).
Qed.

Lemma pruning_keeps_the_earliest_of_equals_witness :
  wf full_store ∧
  filter (λ p, Point.weight p = 2 ∧ Point.chapter p = 1)
    (points (_prune_context full_store).2)
  `prefix_of`
  filter (λ p, Point.weight p = 2 ∧ Point.chapter p = 1) (points full_store).
Proof.
  assert (wf full_store) as H by (apply wf_update, wf_init).
  split; [exact H|]. exact (pruning_keeps_the_earliest_of_equals full_store 2 1 H).
Defined.

(** *** Calls that raise, runs of calls *)

Lemma update_points chapter n s :
  wf s →
  (update_with_chapter chapter n s).1 = (extracted chapter n).2 ∧
  points (update_with_chapter chapter n s).2 =
    (if is_ok (extracted chapter n).2
     then pruned (points s ++ (extracted chapter n).1)
     else points s ++ (extracted chapter n).1).
Proof.
  intros Hwf.
  destruct (record_chapter_state chapter n s Hwf) as (Hmid & Hpts & _).
  rewrite created_extracted in Hpts by done.
  rewrite update_run. rewrite record_chapter_extracted in *. cbn [fst snd] in *.
  destruct (extracted chapter n).2 as [[]|e]; cbn [fst snd is_ok]; [|done].
  destruct (prune_run _ Hmid) as (s' & Hrun & _ & _ & Hpr).
  rewrite Hrun. cbn [fst snd]. by rewrite Hpr, Hpts.
Qed.

(** X5. A key event that is not a string stops the call with an
    [AttributeError], but not without effect: the summary of the chapter is
    stored, and so are the points of the events before it.  The events
    after it, the character development and the hooks of the chapter make
    no point. *)
Theorem ill_typed_event_stops_the_update s chapter n good bad rest :
  wf s →
  dict_lookup chapter "key_events" = Some (VList ((VStr <$> good) ++ bad :: rest)) →
  (∀ t, bad ≠ VStr t) →
  let s' := (update_with_chapter chapter n s).2 in
  (update_with_chapter chapter n s).1 = Raise AttributeError ∧
  points s' = points s ++ (event_point n <$> good) ∧
  chapter_summaries s' = <[n := summary_of chapter n]> (chapter_summaries s).
Proof.
  intros Hwf Hev Hbad s'.
  destruct (update_points chapter n s Hwf) as [Hres Hpts].
  destruct (update_state chapter n s Hwf) as (_ & Hsum & _).
  assert (extracted chapter n = (event_point n <$> good, Raise AttributeError)) as Hex.
  { unfold extracted, get. rewrite Hev. cbn [default from_option id listify iter].
    by rewrite event_texts_stop. }
  rewrite Hex in Hres, Hpts. cbn [fst snd is_ok] in Hres, Hpts. done.
Qed.

Lemma ill_typed_event_stops_the_update_witness :
  wf init ∧
  (update_with_chapter
     [("key_events", VList [VStr "A letter arrives"; VInt 7; VStr "A reply"]);
      ("next_chapter_hooks", VList [VStr "Who wrote it?"])] 1 init).1
    = Raise AttributeError ∧
  points (update_with_chapter
     [("key_events", VList [VStr "A letter arrives"; VInt 7; VStr "A reply"]);
      ("next_chapter_hooks", VList [VStr "Who wrote it?"])] 1 init).2
    = [event_point 1 "A letter arrives"].
Proof.
  split; [exact wf_init|].
  destruct (ill_typed_event_stops_the_update init
              [("key_events", VList [VStr "A letter arrives"; VInt 7; VStr "A reply"]);
               ("next_chapter_hooks", VList [VStr "Who wrote it?"])] 1
              ["A letter arrives"] (VInt 7) [VStr "A reply"] wf_init)
    as (Hres & Hpts & _); [reflexivity|discriminate|].
  split; [exact Hres|exact Hpts].
Defined.

Lemma well_made_mk n ty v :
  ty = "character_development" ∨ ty = "hook" →
  well_made (mk_point n "high" ty v).
Proof. intros Hty. split; [by left|]. cbn. tauto. Qed.

Lemma well_made_extracted chapter n : Forall well_made (extracted chapter n).1.
Proof.
  assert (∀ texts, Forall well_made (event_point n <$> texts)) as Hev.
  { intros texts. apply Forall_fmap, Forall_forall. intros t _.
    unfold event_point, mk_point, event_importance, well_made; cbn.
    destruct (_ || _); cbn; tauto. }
  assert (∀ v, Forall well_made (character_points n v)) as Hch.
  { intros [| | |t|devs|]; cbn; try constructor.
    - destruct (String.eqb t ""); repeat constructor; cbn; tauto.
    - apply Forall_fmap, Forall_forall. intros v _.
      apply well_made_mk. by left. }
  assert (∀ hooks, Forall well_made (hook_points n hooks)) as Hho.
  { intros hooks. apply Forall_fmap, Forall_forall. intros v _.
    apply well_made_mk. by right. }
  unfold extracted.
  destruct (iter (listify (get chapter "key_events" (VList [])))) as [events|e];
    [|constructor].
  destruct (event_texts events) as [texts [[]|e]]; cbn [fst]; [|done].
  destruct (iter (listify (get chapter "next_chapter_hooks" (VList [])))) as [hooks|e];
    cbn [fst]; rewrite ?Forall_app; auto.
Qed.

Lemma Forall_pruned (P : Point.t → Prop) l : Forall P l → Forall P (pruned l).
Proof.
  intros H. unfold pruned. destruct (_ <? _); [|done].
  change (slice_to (MAX_CONTEXT_ITEMS * 2) ?l) with (take 30 l).
  apply Forall_take. by rewrite sort_reverse_perm.
Qed.

Lemma updates_cons chapter n calls s :
  updates ((chapter, n) :: calls) s =
  match (update_with_chapter chapter n s).1 with
  | Ok _ => updates calls (update_with_chapter chapter n s).2
  | Raise e => (Raise e, (update_with_chapter chapter n s).2)
  end.
Proof.
  unfold updates. cbn [for_each]. rewrite bind_run. cbn [fst snd].
  by destruct (update_with_chapter chapter n s) as [[?|?] ?].
Qed.

(** X6. A run of calls of [update_with_chapter], as the chapter loop makes
    them, keeps the store in shape: every point has the weight of its
    importance, which is high or medium, and one of the three types the
    retrieval looks for.  When the run returns, every chapter of the run
    has a summary, and a store that held at most [3 * MAX_CONTEXT_ITEMS]
    points still does. *)
Theorem updates_keep_the_store_in_shape calls s :
  wf s →
  Forall well_made (points s) →
  let s' := (updates calls s).2 in
  wf s' ∧ Forall well_made (points s') ∧
  ((updates calls s).1 = Ok tt →
   (∀ call, call ∈ calls → is_Some (chapter_summaries s' !! call.2)) ∧
   (∀ i, is_Some (chapter_summaries s !! i) → is_Some (chapter_summaries s' !! i)) ∧
   (Z.of_nat (length (points s)) ≤ MAX_CONTEXT_ITEMS * 3 →
    Z.of_nat (length (points s')) ≤ MAX_CONTEXT_ITEMS * 3)).
Proof.
  revert s. induction calls as [|[chapter n] calls IH]; intros s Hwf Hmade.
  { cbn. split_and!; try done. intros _. split_and!; try done.
    intros call Hin. by apply elem_of_nil in Hin. }
  cbv zeta. rewrite updates_cons.
  destruct (update_state chapter n s Hwf) as (Hwf1 & Hsum1 & _).
  destruct (update_points chapter n s Hwf) as [Hres Hpts].
  assert (Forall well_made (points (update_with_chapter chapter n s).2)) as Hmade1.
  { rewrite Hpts. pose proof (well_made_extracted chapter n).
    destruct (is_ok _); [apply Forall_pruned|]; by apply Forall_app. }
  destruct (update_with_chapter chapter n s).1 as [[]|e] eqn:Hr; cbn [fst snd].
  2:{ by split_and!. }
  specialize (IH _ Hwf1 Hmade1). cbv zeta in IH.
  destruct IH as (Hwf' & Hmade' & IH). split_and!; [done|done|].
  intros Hok. destruct (IH Hok) as (Hcalls & Hkeep & Hlen).
  assert (∀ i, is_Some (chapter_summaries s !! i) ∨ i = n →
               is_Some (chapter_summaries (update_with_chapter chapter n s).2 !! i))
    as Hstep.
  { intros i Hi. rewrite Hsum1. destruct (decide (i = n)) as [->|Hne].
    - rewrite lookup_insert_eq. by eexists.
    - rewrite lookup_insert_ne by done. by destruct Hi. }
  split_and!.
  - intros call [->|Hin]%elem_of_cons; [|by apply Hcalls].
    apply Hkeep, Hstep. by right.
  - intros i Hi. apply Hkeep, Hstep. by left.
  - intros _. apply Hlen. rewrite Hpts, <- Hres. cbn [is_ok]. apply length_pruned.
Qed.

Lemma updates_keep_the_store_in_shape_witness :
  wf init ∧ Forall well_made (points init) ∧
  (updates [(sample_chapter, 1); (string_chapter, 2)] init).1 = Ok tt ∧
  is_Some (chapter_summaries
             (updates [(sample_chapter, 1); (string_chapter, 2)] init).2 !! 2) ∧
  Forall well_made
    (points (updates [(sample_chapter, 1); (string_chapter, 2)] init).2).
Proof.
  assert (Forall well_made (points init)) as Hmade by constructor.
  assert ((updates [(sample_chapter, 1); (string_chapter, 2)] init).1 = Ok tt)
    as Hok by (vm_compute; reflexivity).
  destruct (updates_keep_the_store_in_shape
              [(sample_chapter, 1); (string_chapter, 2)] init wf_init Hmade)
    as (_ & Hshape & Hrest).
  destruct (Hrest Hok) as (Hcalls & _ & _).
  split; [exact wf_init|]. split; [exact Hmade|]. split; [exact Hok|].
  split; [|exact Hshape].
  apply (Hcalls (string_chapter, 2)). apply elem_of_cons. right.
  apply elem_of_cons. by left.
Defined.

(** X7. A chapter that is recorded twice under one number has one summary,
    the later one, but the points of both records: as long as the store
    stays within [3 * MAX_CONTEXT_ITEMS] points, the points of the first
    record stay in it beside those of the second. *)
Theorem chapter_updated_twice s first second n :
  wf s → extractable first → extractable second →
  let s' := (update_with_chapter second n (update_with_chapter first n s).2).2 in
  chapter_summaries s' = <[n := summary_of second n]> (chapter_summaries s) ∧
  (Z.of_nat (length (points s) + length (extracted first n).1 +
             length (extracted second n).1) ≤ MAX_CONTEXT_ITEMS * 3 →
   points s' = points s ++ (extracted first n).1 ++ (extracted second n).1).
Proof.
  intros Hwf H1 H2 s'.
  destruct (update_state first n s Hwf) as (Hwf1 & Hsum1 & Hok1 & _).
  destruct (update_state second n _ Hwf1) as (_ & Hsum2 & Hok2 & _).
  destruct (update_points first n s Hwf) as [Hres1 Hpts1].
  destruct (update_points second n _ Hwf1) as [Hres2 Hpts2].
  apply Hok1 in H1. apply Hok2 in H2.
  rewrite <- Hres1, H1 in Hpts1. rewrite <- Hres2, H2 in Hpts2.
  cbn [is_ok] in Hpts1, Hpts2. split.
  - subst s'. by rewrite Hsum2, Hsum1, insert_insert_eq.
  - intros Hlen. subst s'. rewrite Hpts2, Hpts1.
    rewrite (pruned_small (points s ++ _))
      by (rewrite length_app; lia).
    rewrite pruned_small by (rewrite !length_app; lia).
    by rewrite <- app_assoc.
Qed.

Lemma chapter_updated_twice_witness :
  wf init ∧ extractable sample_chapter ∧ extractable string_chapter ∧
  length (points (update_with_chapter string_chapter 1
                    (update_with_chapter sample_chapter 1 init).2).2) = 5%nat ∧
  chapter_summaries (update_with_chapter string_chapter 1
                       (update_with_chapter sample_chapter 1 init).2).2 !! 1
    = Some (summary_of string_chapter 1).
Proof.
  assert (extractable sample_chapter) as H1.
  { split; [|reflexivity]. by exists ["A letter arrives"; "A CRITICAL clue is lost"]. }
  assert (extractable string_chapter) as H2.
  { split; [|reflexivity]. by exists ["Hero found the letter"]. }
  destruct (chapter_updated_twice init sample_chapter string_chapter 1 wf_init H1 H2)
    as [Hsum Hpts].
  split; [exact wf_init|]. split; [exact H1|]. split; [exact H2|]. split.
  - rewrite Hpts; [reflexivity|]. vm_compute. discriminate.
  - rewrite Hsum. apply lookup_insert_eq.
Defined.

(** *** The summaries of a bundle *)

Lemma omap_filter {A B} (f : A → option B) (l : list A) :
  Some <$> omap f l = f <$> filter (λ x, is_Some (f x)) l.
Proof.
  induction l as [|x l IH]; [done|]. cbn [omap list_omap].
  rewrite filter_cons. destruct (f x) as [y|] eqn:E.
  - rewrite decide_True by (by eexists). cbn. by rewrite IH, E.
  - rewrite decide_False by (by intros [? ?]). done.
Qed.

Lemma seqZ_increasing a k : StronglySorted Z.lt (seqZ a k).
Proof.
  destruct (Z.le_gt_cases k 0) as [H|H].
  { rewrite seqZ_nil by done. constructor. }
  rewrite <- (Z2Nat.id k) by lia. generalize (Z.to_nat k). clear. intros m.
  revert a. induction m as [|m IH]; intros a.
  { cbn. constructor. }
  rewrite Nat2Z.inj_succ, seqZ_cons by lia. rewrite Z.pred_succ.
  constructor; [apply IH|].
  apply Forall_forall. intros i Hi. apply elem_of_seqZ in Hi. lia.
Qed.

Lemma StronglySorted_filter {A} (R : A → A → Prop) (P : A → Prop)
    `{∀ x, Decision (P x)} (l : list A) :
  StronglySorted R l → StronglySorted R (filter P l).
Proof.
  induction 1 as [|x l Hl IH Hx]; [constructor|].
  rewrite filter_cons. destruct (decide (P x)); [|done].
  constructor; [done|]. apply Forall_forall. intros y [_ Hy]%list_elem_of_filter.
  by eapply Forall_forall in Hx.
Qed.

(** X8. The previous chapters of a bundle are the summaries of the chapters
    below the one asked for, one for each chapter that has a summary, in
    the order of the chapter numbers; chapters without a summary are passed
    over, and no bundle lists a chapter below 1. *)
Theorem previous_chapters_in_order s n :
  ∃ bundle chapters,
    (get_context_for_chapter n s).1 = Ok bundle ∧
    Some <$> Context.previous_chapters bundle =
      ((chapter_summaries s !!.) <$> chapters) ∧
    StronglySorted Z.lt chapters ∧
    ∀ i, i ∈ chapters ↔ 1 ≤ i < n ∧ is_Some (chapter_summaries s !! i).
Proof.
  destruct (decide (n = 1)) as [->|Hn].
  { exists empty_context, []. split_and!; [done|done|constructor|].
    intros i. split; [by intros ?%elem_of_nil|lia]. }
  rewrite get_context_run by done. cbv zeta. cbn [fst].
  eexists _, (filter (λ i, is_Some (chapter_summaries s !! i)) (range 1 n)).
  split_and!; [reflexivity| | |].
  - cbn [Context.previous_chapters]. apply omap_filter.
  - apply StronglySorted_filter, seqZ_increasing.
  - intros i. rewrite list_elem_of_filter. unfold range. rewrite elem_of_seqZ.
    split; intros [? ?]; split; (done || lia).
Qed.
End StoreMore.

(** ** More of the chapter generator *)

Module GeneratorMore.
Import ChapterGenerator Chapters.

(** *** Dictionaries *)

Lemma lookup_set_item_eq d k v : dict_lookup (set_item d k v) k = Some v.
Proof.
  induction d as [|[k' v'] d IH]; cbn.
  - by rewrite String.eqb_refl.
  - destruct (String.eqb k' k) eqn:E; cbn; by rewrite E.
Qed.

Lemma lookup_set_item_ne d k k' v :
  k ≠ k' → dict_lookup (set_item d k v) k' = dict_lookup d k'.
Proof.
  intros Hne. induction d as [|[k0 v0] d IH]; cbn.
  - destruct (String.eqb_spec k k'); done.
  - destruct (String.eqb_spec k0 k) as [->|]; cbn.
    + destruct (String.eqb_spec k k'); done.
    + by rewrite IH.
Qed.

Lemma set_item_same d k v : dict_lookup d k = Some v → set_item d k v = d.
Proof.
  induction d as [|[k0 v0] d IH]; cbn; [done|].
  destruct (String.eqb_spec k0 k) as [->|]; [by intros [= ->]|].
  intros H. by rewrite IH.
Qed.

(** *** [_validate_chapter_fields] *)

Lemma ensure_list_eq chapter k :
  dict_lookup (ensure_list chapter k) k = Some (listed (dict_lookup chapter k)).
Proof.
  unfold ensure_list, listed.
  destruct (dict_lookup chapter k) as [[| | |t| |]|] eqn:E;
    by rewrite ?lookup_set_item_eq.
Qed.

Lemma ensure_list_ne chapter k k' :
  k ≠ k' → dict_lookup (ensure_list chapter k) k' = dict_lookup chapter k'.
Proof.
  intros Hne. unfold ensure_list.
  destruct (dict_lookup chapter k) as [[| | |t| |]|];
    by rewrite ?lookup_set_item_ne.
Qed.

Lemma listed_fixed held v :
  listed held = v → listed (Some v) = v.
Proof.
  intros <-. destruct held as [[| | |t| |]|]; try done.
  cbn. by destruct (String.eqb t "").
Qed.

Lemma ensure_list_fixed chapter k :
  dict_lookup chapter k = Some (listed (dict_lookup chapter k)) →
  ensure_list chapter k = chapter.
Proof.
  unfold ensure_list. intros H.
  destruct (dict_lookup chapter k) as [[| | |t| |]|] eqn:E; try done.
  cbn in H. by destruct (String.eqb t "").
Qed.

Lemma validate_lookup chapter k :
  dict_lookup (_validate_chapter_fields chapter) k =
  if bool_decide (k ∈ list_fields) then Some (listed (dict_lookup chapter k))
  else dict_lookup chapter k.
Proof.
  unfold _validate_chapter_fields, list_fields. cbn [foldl].
  destruct (decide (k = "genre_elements_used")) as [->|H4].
  { rewrite ensure_list_eq, !ensure_list_ne by done. done. }
  rewrite ensure_list_ne by done.
  destruct (decide (k = "cultural_elements_used")) as [->|H3].
  { rewrite ensure_list_eq, !ensure_list_ne by done. done. }
  rewrite ensure_list_ne by done.
  destruct (decide (k = "next_chapter_hooks")) as [->|H2].
  { rewrite ensure_list_eq, !ensure_list_ne by done. done. }
  rewrite ensure_list_ne by done.
  destruct (decide (k = "key_events")) as [->|H1].
  { by rewrite ensure_list_eq. }
  rewrite ensure_list_ne by done.
  rewrite bool_decide_eq_false_2; [done|].
  rewrite !elem_of_cons, elem_of_nil. tauto.
Qed.

(** X9. [_validate_chapter_fields] gives each of the four list fields a
    value: the empty list where the field is missing, [None] or the empty
    string, the list of the one string where it is a string, and what it
    held in every other case, so that a number stays a number.  Other
    fields are as they were, and a validated chapter is not changed by
    validating it again. *)
Theorem validated_fields chapter :
  let validated := _validate_chapter_fields chapter in
  (∀ k, k ∈ list_fields →
     dict_lookup validated k = Some (listed (dict_lookup chapter k)) ∧
     (∀ t, get validated k VNone ≠ VStr t) ∧ get validated k VNone ≠ VNone) ∧
  (∀ k, k ∉ list_fields → dict_lookup validated k = dict_lookup chapter k) ∧
  _validate_chapter_fields validated = validated.
Proof.
  intros validated. split_and!.
  - intros k Hk. subst validated. unfold get.
    rewrite validate_lookup, bool_decide_eq_true_2 by done.
    split_and!; [done| |]; cbn;
      destruct (dict_lookup chapter k) as [[| | |t| |]|]; cbn; try done;
      by destruct (String.eqb t "").
  - intros k Hk. subst validated.
    by rewrite validate_lookup, bool_decide_eq_false_2.
  - assert (∀ c k, (∀ k', k' ∈ list_fields →
              dict_lookup c k' = Some (listed (dict_lookup chapter k'))) →
              k ∈ list_fields → ensure_list c k = c) as Hfix.
    { intros c k Hc Hk. apply ensure_list_fixed. rewrite (Hc k Hk).
      f_equal. symmetry. by eapply listed_fixed. }
    assert (∀ k', k' ∈ list_fields →
              dict_lookup validated k' = Some (listed (dict_lookup chapter k')))
      as Hval.
    { intros k' Hk'. subst validated.
      by rewrite validate_lookup, bool_decide_eq_true_2. }
    assert (∀ k, k ∈ list_fields → ensure_list validated k = validated) as Hfix'.
    { intros k Hk. by apply Hfix. }
    unfold _validate_chapter_fields at 1. cbn [foldl].
    rewrite (Hfix' "key_events"), (Hfix' "next_chapter_hooks"),
      (Hfix' "cultural_elements_used"), (Hfix' "genre_elements_used");
      [done|..]; unfold list_fields; rewrite !elem_of_cons; tauto.
Qed.

(** *** [_get_chapter_outline] *)

Lemma find_outline_dicts chapters n :
  ∃ found,
    find_outline (VDict <$> chapters) n = Ok found ∧
    match found with
    | Some outline =>
        ∃ before after,
          chapters = before ++ outline :: after ∧
          eq_int (get outline "chapter_number" VNone) n = true ∧
          Forall (other_chapter n) before
    | None => Forall (other_chapter n) chapters
    end.
Proof.
  induction chapters as [|c chapters IH]; cbn.
  { eexists. split; [done|]. constructor. }
  destruct (eq_int (get c "chapter_number" VNone) n) eqn:E.
  - exists (Some c). split; [done|]. exists [], chapters. by split_and!.
  - destruct IH as (found & -> & Hfound). exists found. split; [done|].
    destruct found as [outline|].
    + destruct Hfound as (before & after & -> & Hn & Hbefore).
      exists (c :: before), after. split_and!; [done|done|by constructor].
    + by constructor.
Qed.

(** X10. For an outline whose chapters are dictionaries,
    [_get_chapter_outline] returns the first chapter whose number is the
    one asked for, and the default outline of that number when there is
    none; a chapter whose number came back as a string is never the one
    asked for. *)
Theorem chapter_outline_found_or_default s n chapters :
  dict_lookup (story_outline s) "chapters" = Some (VList (VDict <$> chapters)) →
  ∃ outline,
    _get_chapter_outline s n = Ok outline ∧
    ((∃ before after,
        chapters = before ++ outline :: after ∧
        eq_int (get outline "chapter_number" VNone) n = true ∧
        Forall (other_chapter n) before) ∨
     (outline = default_outline n ∧ Forall (other_chapter n) chapters)) ∧
    (Forall (λ c, ∃ t, dict_lookup c "chapter_number" = Some (VStr t)) chapters →
     outline = default_outline n).
Proof.
  intros Hch. unfold _get_chapter_outline, get. rewrite Hch.
  cbn [default from_option id iter]. rewrite result_bind_run.
  destruct (find_outline_dicts chapters n) as (found & Hfind & Hfound).
  rewrite Hfind, result_bind_run. eexists. split; [done|].
  destruct found as [outline|]; cbn [default from_option id].
  - split; [by left|]. intros Hstr.
    destruct Hfound as (before & after & -> & Hn & _).
    apply Forall_app in Hstr as [_ Hstr]. apply Forall_cons in Hstr as [[t Ht] _].
    unfold get in Hn. by rewrite Ht in Hn.
  - split; [by right|done].
Qed.

Lemma chapter_outline_found_or_default_witness :
  ∃ outline,
    _get_chapter_outline Scenario.mystery_generator 3 = Ok outline ∧
    get outline "title" VNone = VStr "Chapter 3".
Proof.
  destruct (chapter_outline_found_or_default Scenario.mystery_generator 3
    [[("chapter_number", VInt 1); ("title", VStr "Chapter 1");
      ("summary", VStr "To be determined"); ("key_points", VList []);
      ("characters_involved", VList []); ("setting_details", VStr "");
      ("cultural_elements", VList []);
      ("genre_elements", VStr "Incorporating elements of Mystery");
      ("narrative_progression", VStr "Moving forward with Fast-paced pace")];
     [("chapter_number", VInt 2); ("title", VStr "Chapter 2");
      ("summary", VStr "To be determined"); ("key_points", VList []);
      ("characters_involved", VList []); ("setting_details", VStr "");
      ("cultural_elements", VList []);
      ("genre_elements", VStr "Incorporating elements of Mystery");
      ("narrative_progression", VStr "Moving forward with Fast-paced pace")];
     [("chapter_number", VInt 3); ("title", VStr "Chapter 3");
      ("summary", VStr "To be determined"); ("key_points", VList []);
      ("characters_involved", VList []); ("setting_details", VStr "");
      ("cultural_elements", VList []);
      ("genre_elements", VStr "Incorporating elements of Mystery");
      ("narrative_progression", VStr "Moving forward with Fast-paced pace")];
     [("chapter_number", VInt 4); ("title", VStr "Chapter 4");
      ("summary", VStr "To be determined"); ("key_points", VList []);
      ("characters_involved", VList []); ("setting_details", VStr "");
      ("cultural_elements", VList []);
      ("genre_elements", VStr "Incorporating elements of Mystery");
      ("narrative_progression", VStr "Moving forward with Fast-paced pace")]])
    as (outline & Hrun & _); [vm_compute; reflexivity|].
  exists outline. split; [exact Hrun|].
  assert (_get_chapter_outline Scenario.mystery_generator 3 =
          Ok [("chapter_number", VInt 3); ("title", VStr "Chapter 3");
      ("summary", VStr "To be determined"); ("key_points", VList []);
      ("characters_involved", VList []); ("setting_details", VStr "");
      ("cultural_elements", VList []);
      ("genre_elements", VStr "Incorporating elements of Mystery");
      ("narrative_progression", VStr "Moving forward with Fast-paced pace")])
    as Hval by (vm_compute; reflexivity).
  rewrite Hval in Hrun. injection Hrun as <-. reflexivity.
Defined.

(** *** [generate_chapter] *)

Lemma get_context_state n cm :
  Store.wf cm →
  let cm' := (ContextManager.get_context_for_chapter n cm).2 in
  is_ok (ContextManager.get_context_for_chapter n cm).1 = true ∧
  Store.wf cm' ∧
  ContextManager.points cm' = ContextManager.points cm ∧
  ContextManager.chapter_summaries cm' = ContextManager.chapter_summaries cm.
Proof.
  intros Hwf. destruct (decide (n = 1)) as [->|Hn]; [done|].
  rewrite StoreFacts.get_context_run by done. cbv zeta. cbn [fst snd is_ok].
  unfold Store.wf, ContextManager.points, ContextManager.deref in *.
  cbn [ContextManager.objects ContextManager.context_points
       ContextManager.chapter_summaries].
  rewrite length_app, lookup_app_l by done. split_and!; [done|lia|done|done].
Qed.

Lemma context_is_ok n cm :
  is_ok (ContextManager.get_context_for_chapter n cm).1 = true.
Proof.
  destruct (decide (n = 1)) as [->|Hn]; [done|].
  by rewrite StoreFacts.get_context_run.
Qed.

Lemma generate_chapter_run parsed n s :
  generate_chapter parsed n s =
  match _get_chapter_outline s n with
  | Raise e => (Raise e, s)
  | Ok outline =>
      match _determine_genre_emphasis s n with
      | Raise e => (Raise e, at_parser n s)
      | Ok _ =>
          try_except (parse_chapter parsed n)
            (λ _, fallback_chapter n outline) (at_parser n s)
      end
  end.
Proof.
  unfold generate_chapter.
  rewrite bind_run. change (get_state s) with (Ok s, s). cbv beta iota.
  rewrite bind_run, lift_run.
  destruct (_get_chapter_outline s n) as [outline|e]; [|done]. cbv beta iota.
  rewrite bind_run. unfold on_context_manager, at_parser.
  pose proof (context_is_ok n (context_manager s)) as Hctx.
  destruct (ContextManager.get_context_for_chapter n (context_manager s))
    as [[ctx|e] cm]; [|done].
  cbv beta iota. cbn [snd]. rewrite bind_run, lift_run.
  by destruct (_determine_genre_emphasis s n).
Qed.

Lemma zero_chapters v : len v = Ok 0 → iter v = Ok [].
Proof.
  destruct v as [| | |t|l|d]; cbn; try done.
  - destruct t; [done|]. cbn. intros [= H]; lia.
  - destruct l; [done|]. cbn. intros [= H]; lia.
  - destruct d; [done|]. cbn. intros [= H]; lia.
Qed.




(** The fallback chapter. *)
Lemma fallback_run n outline s s0 :
  story_outline s0 = story_outline s → genres s0 = genres s →
  is_ok (_determine_genre_emphasis s n) = true →
  ∃ elements,
    fallback_chapter n outline s0 =
    (Ok [("chapter_number", VInt n);
         ("title", get outline "title" (VStr ("Chapter " +:+ pretty n)));
         ("content", VStr "Error generating chapter content.");
         ("summary", get outline "summary" (VStr "Summary not available."));
         ("key_events", VList []);
         ("character_development", VStr "No character development tracked.");
         ("cultural_elements_used", VList []);
         ("genre_elements_used", elements);
         ("next_chapter_hooks", VList [])],
     s0).
Proof.
  intros Hso Hgs Hemph.
  destruct (GeneratorFacts.default_genre_elements_ok s n Hemph)
    as (total & position & _ & _ & Hdef).
  unfold fallback_chapter. rewrite bind_run.
  change (get_state s0) with (Ok s0, s0).
  cbv beta iota. rewrite bind_run, lift_run.
  assert (_get_default_genre_elements s0 n = _get_default_genre_elements s n) as ->.
  { unfold _get_default_genre_elements, total_chapters. by rewrite Hso, Hgs. }
  rewrite Hdef. cbv beta iota. by eexists.
Qed.

(** *** A round of the chapter loop *)

(** X12. A round of the chapter loop in which the response cannot be
    parsed returns the fallback chapter and records it like any other:
    the summary of the outline becomes the summary of the chapter, and the
    placeholder of the character development becomes a point of high
    importance, the only one the round makes, which later bundles list
    among the character developments. *)
Theorem failed_round_leaves_a_point s n e :
  is_ok (_get_chapter_outline s n) = true →
  is_ok (_determine_genre_emphasis s n) = true →
  Store.wf (context_manager s) →
  ∃ outline chapter s',
    _get_chapter_outline s n = Ok outline ∧
    chapter_round (Raise e) n s = (Ok chapter, s') ∧
    dict_lookup chapter "content" =
      Some (VStr "Error generating chapter content.") ∧
    ContextManager.points (context_manager s') =
      Store.pruned (ContextManager.points (context_manager s) ++ [fallback_point n]) ∧
    ContextManager.chapter_summaries (context_manager s') =
      <[n := Summary.Build
               (get outline "title" (VStr ("Chapter " +:+ pretty n)))
               (get outline "summary" (VStr "Summary not available."))
               (VList [])]> (ContextManager.chapter_summaries (context_manager s)).
Proof.
  intros Hout Hemph Hwf.
  destruct (get_context_state n _ Hwf) as (_ & Hwf1 & Hpts1 & Hsum1).
  unfold chapter_round. rewrite bind_run, generate_chapter_run.
  destruct (_get_chapter_outline s n) as [outline|] eqn:Ho; [|done].
  destruct (_determine_genre_emphasis s n) as [guidance|] eqn:Hg; [|done].
  unfold try_except, parse_chapter. rewrite bind_run, lift_run. cbv beta iota.
  destruct (fallback_run n outline s (at_parser n s)) as (elements & ->);
    [done|done|by rewrite Hg|].
  cbv beta iota. set (chapter := [("chapter_number", VInt n); _; _; _; _; _; _; _; _]).
  rewrite bind_run. unfold on_context_manager.
  change (context_manager (at_parser n s))
    with (ContextManager.get_context_for_chapter n (context_manager s)).2.
  set (cm := (ContextManager.get_context_for_chapter n (context_manager s)).2) in *.
  destruct (StoreMore.update_points chapter n cm Hwf1) as [Hres Hpts].
  destruct (StoreFacts.update_state chapter n cm Hwf1) as (_ & Hsum & _).
  assert (Store.extracted chapter n = ([fallback_point n], Ok tt)) as Hex
    by reflexivity.
  rewrite Hex in Hres, Hpts. cbn [fst snd is_ok] in Hres, Hpts.
  destruct (ContextManager.update_with_chapter chapter n cm) as [r cm'].
  cbn [fst snd] in Hres, Hpts, Hsum. subst r. cbv beta iota.
  eexists outline, chapter, _. split; [done|]. split; [reflexivity|].
  cbn [context_manager]. split_and!; [done|by rewrite Hpts, Hpts1|].
  by rewrite Hsum, Hsum1.
Qed.

Lemma failed_round_leaves_a_point_witness :
  ∃ chapter s',
    chapter_round (Raise OutputParserException) 1 Scenario.mystery_generator
      = (Ok chapter, s') ∧
    ContextManager.points (context_manager s') = [fallback_point 1].
Proof.
  destruct (failed_round_leaves_a_point Scenario.mystery_generator 1
              OutputParserException)
    as (outline & chapter & s' & _ & Hrun & _ & Hpts & _);
    [reflexivity|reflexivity|exact StoreFacts.wf_init|].
  exists chapter, s'. split; [exact Hrun|]. rewrite Hpts. reflexivity.
Defined.

(** *** [_update_genre_arcs] *)












(** *** [_initialize_genre_arcs] and the stages of the emphasis *)











(** *** What the [try] statement leaves alone *)













End GeneratorMore.

(** ** The outline stage and the chapter loop together *)

Module StoryMore.
Import StoryFoundation StoryOutline ChapterGenerator Chapters Outlines.
Import FoundationFacts GeneratorMore.

(** *** A response that holds a string where the chapters should be *)

Lemma append_outline_string x t :
  append_outline x (VStr t) = (Raise AttributeError, VStr t).
Proof. done. Qed.

Lemma append_loop_string (f : Z → value) items t :
  items ≠ [] →
  for_each items (λ i, append_outline (f i)) (VStr t) =
  (Raise AttributeError, VStr t).
Proof. destruct items; [done|]. intros _. done. Qed.

Lemma range_nonempty a b : a < b → range a b ≠ [].
Proof.
  intros H. unfold range. rewrite seqZ_cons by lia. done.
Qed.

Lemma contains_one_char c : contains "genre_elements" (String c "") = false.
Proof.
  destruct c as [[] [] [] [] [] [] [] []]; reflexivity.
Qed.

Lemma chars_nonempty t : t ≠ "" → ∃ c t', chars t = String c "" :: chars t'.
Proof. destruct t as [|c t]; [done|]. intros _. by exists c, t. Qed.

Lemma substring_nonempty k t :
  0 < k → t ≠ "" → substring_to k t ≠ "".
Proof.
  intros Hk. destruct t as [|c t]; [done|]. intros _.
  unfold substring_to, slice_to. destruct (Z.leb_spec 0 k); [|lia].
  destruct (Z.to_nat k) eqn:E; [lia|]. done.
Qed.

(** X16. When the parsed response holds a string where the list of
    chapters should be, the stage raises: the body of the [try] statement
    fails on the string, and so does the handler, which appends its
    placeholders to the same string, so the [AttributeError] leaves the
    stage whenever at least one chapter is asked for. *)
Theorem outlines_of_a_string result t narrative_pacing N genres :
  dict_lookup result "chapters" = Some (VStr t) →
  1 ≤ N →
  _generate_chapter_outlines (Ok result) narrative_pacing N genres =
  Raise AttributeError.
Proof.
  intros Hget HN.
  unfold _generate_chapter_outlines. rewrite bind_run.
  change (put_state (VList []) VNone) with (Ok tt, VList []). cbv beta iota.
  rewrite bind_run.
  assert (∃ e t', parse_outlines (Ok result) narrative_pacing N genres (VList [])
                  = (Raise e, VStr t')) as (e & t' & Hparse).
  { unfold parse_outlines.
    rewrite bind_run, lift_run. cbv beta iota. rewrite bind_run.
    unfold get at 1. rewrite Hget. cbn [default from_option id].
    change (put_state (VStr t) (VList [])) with (Ok tt, VStr t).
    cbv beta iota. rewrite bind_run.
    change (get_state (VStr t)) with (Ok (VStr t), VStr t).
    cbv beta iota. rewrite bind_run, lift_run. cbn [len]. cbv beta iota.
    rewrite bind_run.
    destruct (Z.ltb_spec (Z.of_nat (String.length t)) N) as [Hlt|Hge].
    { rewrite append_loop_string by (by apply range_nonempty).
      by exists AttributeError, t. }
    assert (∃ t', t' ≠ "" ∧
      (if N <? Z.of_nat (String.length t)
       then chapter_outlines ← get_state;
            sliced ← lift (slice chapter_outlines N);
            put_state sliced
       else mret tt) (VStr t) = (Ok tt, VStr t')) as (t' & Ht' & ->).
    { assert (t ≠ "") as Ht by (intros ->; cbn in Hge; lia).
      destruct (Z.ltb_spec N (Z.of_nat (String.length t))).
      - exists (substring_to N t). split; [apply substring_nonempty; [lia|done]|].
        done.
      - by exists t. }
    cbv beta iota. rewrite bind_run.
    change (get_state (VStr t')) with (Ok (VStr t'), VStr t').
    cbv beta iota. rewrite bind_run, lift_run. cbn [iter]. cbv beta iota.
    destruct (chars_nonempty t' Ht') as (c & rest & ->).
    cbn [fmap list_fmap imap for_each]. rewrite bind_run, bind_run.
    unfold ensure_key at 1. rewrite bind_run, lift_run.
    cbn [fst snd contains_item]. rewrite contains_one_char. cbv beta iota.
    rewrite bind_run, lift_run. cbn [assign_item]. cbv beta iota.
    by exists TypeError, t'. }
  unfold try_except. rewrite Hparse. unfold fallback_outlines.
  rewrite append_loop_string by (apply range_nonempty; lia). done.
Qed.

Lemma outlines_of_a_string_witness :
  _generate_chapter_outlines (Ok [("chapters", VStr "1. Arrival 2. Departure")])
    "Fast-paced" 2 ["Mystery"] = Raise AttributeError.
Proof.
  apply (outlines_of_a_string [("chapters", VStr "1. Arrival 2. Departure")]
           "1. Arrival 2. Departure"); [reflexivity|lia].
Defined.

(** *** From the outline stage to the chapter loop *)












End StoryMore.
